(** * MTA-Timings: the GTFS-Realtime collector (src/mta_data_collector.py)

    A shallow embedding of the ingestion pipeline: the decoded protobuf
    messages, the three per-kind processors, the audit log insert and the
    body of the polling loop, run against a model of the psycopg2
    connection (statements, commits, faults) and of the network. *)

From Stdlib Require Import ZArith List String Ascii Bool Lia.
From Stdlib Require Import DecimalString DecimalPos DecimalZ.
Import ListNotations.
Local Open Scope string_scope.
Local Open Scope list_scope.
Local Open Scope Z_scope.

Set Implicit Arguments.

(** ** Python values *)

(** A protobuf [float] field, kept as its 32 bit pattern; the code only
    copies these values into rows. *)
Inductive float32 : Type := F32 (bits : Z).

Definition float_zero : float32 := F32 0.

(** A naive [datetime.datetime] (no tzinfo), as [utcfromtimestamp] builds it. *)
Record datetime : Type := Datetime {
  dt_year : Z; dt_month : Z; dt_day : Z;
  dt_hour : Z; dt_minute : Z; dt_second : Z }.

(** The cells of the tuples handed to the database driver. *)
Inductive pyval : Type :=
| PyNone
| PyBool (b : bool)
| PyInt (z : Z)
| PyFloat (f : float32)
| PyStr (s : string)
| PyDatetime (d : datetime).

(** Exceptions that the modelled code can meet. *)
Inductive exn : Type :=
| ValueError (msg : string)          (* datetime: year out of range *)
| RequestException (msg : string)    (* requests.get failed: transport, timeout *)
| HTTPError (status : Z)             (* raise_for_status on a 4xx/5xx answer *)
| DecodeError (msg : string)         (* ParseFromString on a malformed payload *)
| OperationalError (msg : string).   (* psycopg2: connect, execute or commit failed *)

Inductive result (A : Type) : Type :=
| Ok (a : A)
| Raise (e : exn).
Arguments Ok {A} a.
Arguments Raise {A} e.

(** Python's truth protocol: [bool(x)] goes through [__bool__], then
    [__len__], and is [True] for an object that defines neither. *)
Class PyTruth (A : Type) : Type := truth : A -> bool.

#[global] Instance truth_int : PyTruth Z := fun z => negb (z =? 0).
#[global] Instance truth_str : PyTruth string :=
  fun s => match s with EmptyString => false | _ => true end.
#[global] Instance truth_list {A : Type} : PyTruth (list A) :=
  fun l => match l with [] => false | _ :: _ => true end.
(** A Python variable holding either [None] or an object. *)
#[global] Instance truth_none_or {A : Type} `{PyTruth A} : PyTruth (option A) :=
  fun o => match o with None => false | Some a => truth a end.

(** [str(n)] for an int: the decimal numeral, with a minus sign when negative. *)
Definition py_str_int (n : Z) : string := NilZero.string_of_int (Z.to_int n).

(** ** datetime.utcfromtimestamp *)

(** Days since 1970-01-01 to the proleptic Gregorian (year, month, day). *)
Definition civil_from_days (days : Z) : Z * Z * Z :=
  let z := days + 719468 in
  let era := z / 146097 in
  let doe := z - era * 146097 in
  let yoe := (doe - doe / 1460 + doe / 36524 - doe / 146096) / 365 in
  let doy := doe - (365 * yoe + yoe / 4 - yoe / 100) in
  let mp := (5 * doy + 2) / 153 in
  let d := doy - (153 * mp + 2) / 5 + 1 in
  let m := if mp <? 10 then mp + 3 else mp - 9 in
  let y := yoe + era * 400 + (if m <=? 2 then 1 else 0) in
  (y, m, d).

Definition MIN_TIMESTAMP : Z := -62135596800.   (* 0001-01-01 00:00:00 *)
Definition MAX_TIMESTAMP : Z := 253402300799.   (* 9999-12-31 23:59:59 *)

Definition in_datetime_range (ts : Z) : bool :=
  (MIN_TIMESTAMP <=? ts) && (ts <=? MAX_TIMESTAMP).

(** [datetime.utcfromtimestamp(ts)] for an int [ts]: the UTC calendar time,
    or an exception when the year falls outside 1..9999.  One exception
    stands for all that Python raises there (ValueError naming the year, or
    OverflowError or OSError for a value the platform cannot take): the
    collector handles them alike and only the log text tells them apart. *)
Definition utcfromtimestamp (ts : Z) : result datetime :=
  if in_datetime_range ts then
    let '(y, m, d) := civil_from_days (ts / 86400) in
    let sod := ts mod 86400 in
    Ok (Datetime y m d (sod / 3600) ((sod mod 3600) / 60) (sod mod 60))
  else Raise (ValueError "year is out of range").

(** ** The decoded GTFS-Realtime messages

    The fields the collector reads.  An optional sub-message, and an optional
    scalar whose absence the specification talks about, is stored as an
    [option]; reading it in Python ([entity.trip_update], [stu.arrival.time])
    never fails and yields the default instance or the default value when the
    field is unset, which is what the accessors below return.  The remaining
    scalars are stored as the value Python reads.  A message class defines
    neither [__bool__] nor [__len__], so every message object is true, the
    default instance of an unset field included; a repeated field is a
    container with [__len__]. *)

Module TripDescriptor.
Record t : Type := Make {
  trip_id : string;
  route_id : string;
  start_date : string;
  schedule_relationship : Z }.
Definition default : t := Make "" "" "" 0.
End TripDescriptor.

Module StopTimeEvent.
Record t : Type := Make {
  delay_opt : option Z;
  time_opt : option Z }.
Definition default : t := Make None None.
Definition delay (e : t) : Z := match delay_opt e with Some d => d | None => 0 end.
Definition time (e : t) : Z := match time_opt e with Some x => x | None => 0 end.
End StopTimeEvent.

Module StopTimeUpdate.
Record t : Type := Make {
  stop_sequence : Z;
  stop_id : string;
  arrival_opt : option StopTimeEvent.t;
  departure_opt : option StopTimeEvent.t }.
Definition arrival (u : t) : StopTimeEvent.t :=
  match arrival_opt u with Some e => e | None => StopTimeEvent.default end.
Definition departure (u : t) : StopTimeEvent.t :=
  match departure_opt u with Some e => e | None => StopTimeEvent.default end.
End StopTimeUpdate.

Module TripUpdate.
Record t : Type := Make {
  trip : TripDescriptor.t;
  stop_time_update : list StopTimeUpdate.t }.
Definition default : t := Make TripDescriptor.default [].
End TripUpdate.

Module VehicleDescriptor.
Record t : Type := Make { id : string }.
Definition default : t := Make "".
End VehicleDescriptor.

Module Position.
Record t : Type := Make {
  latitude : float32;
  longitude : float32;
  bearing : float32;
  speed : float32 }.
Definition default : t := Make float_zero float_zero float_zero float_zero.
End Position.

Module VehiclePosition.
(** [IN_TRANSIT_TO], the declared default of [current_status]. *)
Definition IN_TRANSIT_TO : Z := 2.
Record t : Type := Make {
  trip : TripDescriptor.t;
  vehicle : VehicleDescriptor.t;
  position_opt : option Position.t;
  stop_id : string;
  current_status : Z;
  timestamp_opt : option Z }.
Definition default : t :=
  Make TripDescriptor.default VehicleDescriptor.default None "" IN_TRANSIT_TO None.
Definition position (v : t) : Position.t :=
  match position_opt v with Some p => p | None => Position.default end.
Definition timestamp (v : t) : Z :=
  match timestamp_opt v with Some x => x | None => 0 end.
End VehiclePosition.

Module Translation.
Record t : Type := Make { text : string }.
End Translation.

Module TranslatedString.
Record t : Type := Make { translation : list Translation.t }.
Definition default : t := Make [].
End TranslatedString.

Module Alert.
Definition UNKNOWN_CAUSE : Z := 1.
Definition UNKNOWN_EFFECT : Z := 8.
Record t : Type := Make {
  header_text_opt : option TranslatedString.t;
  description_text_opt : option TranslatedString.t;
  cause : Z;
  effect : Z }.
Definition default : t := Make None None UNKNOWN_CAUSE UNKNOWN_EFFECT.
Definition header_text (a : t) : TranslatedString.t :=
  match header_text_opt a with Some s => s | None => TranslatedString.default end.
Definition description_text (a : t) : TranslatedString.t :=
  match description_text_opt a with Some s => s | None => TranslatedString.default end.
End Alert.

Module FeedEntity.
Record t : Type := Make {
  id : string;
  trip_update_opt : option TripUpdate.t;
  vehicle_opt : option VehiclePosition.t;
  alert_opt : option Alert.t }.
Definition trip_update (e : t) : TripUpdate.t :=
  match trip_update_opt e with Some u => u | None => TripUpdate.default end.
Definition vehicle (e : t) : VehiclePosition.t :=
  match vehicle_opt e with Some v => v | None => VehiclePosition.default end.
Definition alert (e : t) : Alert.t :=
  match alert_opt e with Some a => a | None => Alert.default end.
(** [HasField]: whether the payload was set on the wire. *)
Definition has_trip_update (e : t) : bool :=
  match trip_update_opt e with Some _ => true | None => false end.
Definition has_vehicle (e : t) : bool :=
  match vehicle_opt e with Some _ => true | None => false end.
Definition has_alert (e : t) : bool :=
  match alert_opt e with Some _ => true | None => false end.
End FeedEntity.

Module FeedHeader.
Record t : Type := Make { timestamp_opt : option Z }.
Definition timestamp (h : t) : Z :=
  match timestamp_opt h with Some x => x | None => 0 end.
End FeedHeader.

Module FeedMessage.
Record t : Type := Make {
  header : FeedHeader.t;
  entity : list FeedEntity.t }.
End FeedMessage.

#[global] Instance truth_StopTimeEvent : PyTruth StopTimeEvent.t := fun _ => true.
#[global] Instance truth_TripUpdate : PyTruth TripUpdate.t := fun _ => true.
#[global] Instance truth_Position : PyTruth Position.t := fun _ => true.
#[global] Instance truth_VehiclePosition : PyTruth VehiclePosition.t := fun _ => true.
#[global] Instance truth_TranslatedString : PyTruth TranslatedString.t := fun _ => true.
#[global] Instance truth_Alert : PyTruth Alert.t := fun _ => true.
#[global] Instance truth_FeedMessage : PyTruth FeedMessage.t := fun _ => true.

(** ** Rows

    The tuples the processors build, one record per INSERT column list. *)

Record trip_update_row : Type := TripUpdateRow {
  tu_feed_log_id : pyval;
  tu_trip_id : pyval;
  tu_route_id : pyval;
  tu_start_date : pyval;
  tu_schedule_relationship : pyval }.

Record stop_time_update_row : Type := StopTimeUpdateRow {
  stu_feed_log_id : pyval;
  stu_trip_id : pyval;
  stu_stop_id : pyval;
  stu_stop_sequence : pyval;
  stu_arrival_time : pyval;
  stu_departure_time : pyval;
  stu_delay_seconds : pyval }.

Record vehicle_position_row : Type := VehiclePositionRow {
  vp_feed_log_id : pyval;
  vp_vehicle_id : pyval;
  vp_trip_id : pyval;
  vp_route_id : pyval;
  vp_current_stop_id : pyval;
  vp_current_status : pyval;
  vp_lat : pyval;
  vp_lon : pyval;
  vp_bearing : pyval;
  vp_speed : pyval;
  vp_position_timestamp : pyval }.

Record service_alert_row : Type := ServiceAlertRow {
  sa_feed_log_id : pyval;
  sa_header_text : pyval;
  sa_description_text : pyval;
  sa_cause : pyval;
  sa_effect : pyval }.

(** The parameters of the audit INSERT, and the row the database stores:
    [feed_log_id] is generated by the database and [fetched_at] is its NOW(). *)
Record feed_log_params : Type := FeedLogParams {
  flp_feed_url : pyval;
  flp_feed_name : pyval;
  flp_feed_timestamp : pyval;
  flp_success : pyval;
  flp_error_message : pyval }.

Record feed_log_row : Type := FeedLogRow {
  fl_feed_log_id : Z;
  fl_fetched_at : Z;
  fl_params : feed_log_params }.

(** ** The database connection *)

Record database : Type := Database {
  realtime_feed_logs : list feed_log_row;
  realtime_trip_updates : list trip_update_row;
  realtime_stop_time_updates : list stop_time_update_row;
  realtime_vehicle_positions : list vehicle_position_row;
  realtime_service_alerts : list service_alert_row }.

Definition empty_database : database := Database [] [] [] [] [].

Definition db_append (a b : database) : database :=
  Database (realtime_feed_logs a ++ realtime_feed_logs b)
           (realtime_trip_updates a ++ realtime_trip_updates b)
           (realtime_stop_time_updates a ++ realtime_stop_time_updates b)
           (realtime_vehicle_positions a ++ realtime_vehicle_positions b)
           (realtime_service_alerts a ++ realtime_service_alerts b).

Inductive statement : Type :=
| InsertFeedLog (p : feed_log_params)
| InsertTripUpdates (rows : list trip_update_row)
| InsertStopTimeUpdates (rows : list stop_time_update_row)
| InsertVehiclePositions (rows : list vehicle_position_row)
| InsertServiceAlerts (rows : list service_alert_row).

Inductive db_call : Type :=
| Execute (s : statement)
| Commit.

Inductive outcome : Type :=
| Raised
| Done
| Returned (id : Z).

Inductive log_record : Type :=
| LogInfo (msg : string)
| LogError (msg : string).

(** The state one polling cycle runs in: the committed tables, the rows of
    the open transaction, every call made on the connection so far with its
    outcome (oldest first), and the log output. *)
Record world : Type := World {
  tables : database;
  pending : database;
  journal : list (db_call * outcome);
  log : list log_record }.

(** What the program does not control.  [db_fault n] tells whether the call
    number [n] on the connection raises; [serial n] and [now n] are the id
    and the time the database would use at that call. *)
Record response : Type := Response {
  status_code : Z;
  content : list Byte.byte }.

Record environment : Type := Environment {
  requests_get : string -> result response;
  ParseFromString : list Byte.byte -> result FeedMessage.t;
  connect_fault : bool;
  db_fault : nat -> bool;
  serial : nat -> Z;
  now : nat -> Z }.

(** ** The monads: exceptions, and exceptions over the world *)

Definition rbind {A B : Type} (r : result A) (k : A -> result B) : result B :=
  match r with Ok a => k a | Raise e => Raise e end.

Definition M (A : Type) : Type := world -> result A * world.

Definition ret {A : Type} (a : A) : M A := fun w => (Ok a, w).

Definition bind {A B : Type} (m : M A) (k : A -> M B) : M B :=
  fun w => match m w with
           | (Ok a, w') => k a w'
           | (Raise e, w') => (Raise e, w')
           end.

Definition lift {A : Type} (r : result A) : M A := fun w => (r, w).

Declare Scope py_scope.
Delimit Scope py_scope with py.
Notation "x <~ r ;; k" := (rbind r (fun x => k))
  (at level 61, r at next level, right associativity) : py_scope.
Notation "x <- m ;; k" := (bind m (fun x => k))
  (at level 61, m at next level, right associativity) : py_scope.
Notation "m ;; k" := (bind m (fun _ => k))
  (at level 61, right associativity) : py_scope.
Local Open Scope py_scope.

(** [str(e)], as it goes into the log.  The text for an HTTP error is
    shortened: requests adds the reason and the url. *)
Definition exn_str (e : exn) : string :=
  match e with
  | ValueError msg => msg
  | RequestException msg => msg
  | HTTPError status => py_str_int status ++ " Error"
  | DecodeError msg => msg
  | OperationalError msg => msg
  end%string.

Definition py_len {A : Type} (l : list A) : string := py_str_int (Z.of_nat (List.length l)).

Definition logging_info (msg : string) : M unit :=
  fun w => (Ok tt, World (tables w) (pending w) (journal w) (log w ++ [LogInfo msg])).

Definition logging_error (msg : string) : M unit :=
  fun w => (Ok tt, World (tables w) (pending w) (journal w) (log w ++ [LogError msg])).

(** [resp.raise_for_status()]: an exception for a 4xx or 5xx status. *)
Definition raise_for_status (resp : response) : result unit :=
  if (400 <=? status_code resp) && (status_code resp <? 600)
  then Raise (HTTPError (status_code resp)) else Ok tt.

(** ** The collector *)

Definition GTFS_RT_FEEDS : list (string * string) :=
  [ ("Subway-ACE", "https://api-endpoint.mta.info/Dataservice/mtagtfsfeeds/nyct%2Fgtfs-ace");
    ("Subway-BDFM", "https://api-endpoint.mta.info/Dataservice/mtagtfsfeeds/nyct%2Fgtfs-bdfm");
    ("Subway-G", "https://api-endpoint.mta.info/Dataservice/mtagtfsfeeds/nyct%2Fgtfs-g");
    ("Subway-JZ", "https://api-endpoint.mta.info/Dataservice/mtagtfsfeeds/nyct%2Fgtfs-jz");
    ("Subway-NQRW", "https://api-endpoint.mta.info/Dataservice/mtagtfsfeeds/nyct%2Fgtfs-nqrw");
    ("Subway-L", "https://api-endpoint.mta.info/Dataservice/mtagtfsfeeds/nyct%2Fgtfs-l");
    ("Subway-1234567S", "https://api-endpoint.mta.info/Dataservice/mtagtfsfeeds/nyct%2Fgtfs");
    ("Subway-SIR", "https://api-endpoint.mta.info/Dataservice/mtagtfsfeeds/nyct%2Fgtfs-si");
    ("LIRR", "https://api-endpoint.mta.info/Dataservice/mtagtfsfeeds/lirr%2Fgtfs-lirr");
    ("MNR", "https://api-endpoint.mta.info/Dataservice/mtagtfsfeeds/mnr%2Fgtfs-mnr");
    ("All-Alerts", "https://api-endpoint.mta.info/Dataservice/mtagtfsfeeds/camsys%2Fall-alerts");
    ("Subway-Alerts", "https://api-endpoint.mta.info/Dataservice/mtagtfsfeeds/camsys%2Fsubway-alerts");
    ("Bus-Alerts", "https://api-endpoint.mta.info/Dataservice/mtagtfsfeeds/camsys%2Fbus-alerts");
    ("LIRR-Alerts", "https://api-endpoint.mta.info/Dataservice/mtagtfsfeeds/camsys%2Flirr-alerts");
    ("MNR-Alerts", "https://api-endpoint.mta.info/Dataservice/mtagtfsfeeds/camsys%2Fmnr-alerts") ]%string.

Definition POLL_INTERVAL : Z := 120.

(** [_ts_to_datetime] *)
Definition _ts_to_datetime (ts : Z) : result pyval :=
  if truth ts then d <~ utcfromtimestamp ts ;; Ok (PyDatetime d) else Ok PyNone.

(** [_translate] *)
Definition _translate (translated_string_msg : TranslatedString.t) : string :=
  if truth translated_string_msg
     && truth (TranslatedString.translation translated_string_msg)
  then match TranslatedString.translation translated_string_msg with
       | first :: _ => Translation.text first
       | [] => ""%string          (* translation[0] of an empty list: not reached *)
       end
  else ""%string.

(** The body of the inner loop of [process_trip_updates]: the tuple for one
    stop time update. *)
Definition stop_time_update_tuple (feed_log_id : Z) (trip_id : string)
    (stu : StopTimeUpdate.t) : result stop_time_update_row :=
  let stop_id := StopTimeUpdate.stop_id stu in
  let stop_seq := StopTimeUpdate.stop_sequence stu in
  arrival_time <~
    (if truth (StopTimeUpdate.arrival stu)
        && truth (StopTimeEvent.time (StopTimeUpdate.arrival stu))
     then _ts_to_datetime (StopTimeEvent.time (StopTimeUpdate.arrival stu))
     else Ok PyNone) ;;
  departure_time <~
    (if truth (StopTimeUpdate.departure stu)
        && truth (StopTimeEvent.time (StopTimeUpdate.departure stu))
     then _ts_to_datetime (StopTimeEvent.time (StopTimeUpdate.departure stu))
     else Ok PyNone) ;;
  let delay :=
    if truth (StopTimeUpdate.arrival stu)
       && truth (StopTimeEvent.delay (StopTimeUpdate.arrival stu))
    then PyInt (StopTimeEvent.delay (StopTimeUpdate.arrival stu))
    else PyNone in
  Ok (StopTimeUpdateRow (PyInt feed_log_id) (PyStr trip_id) (PyStr stop_id)
        (PyInt stop_seq) arrival_time departure_time delay).

(** [for stu in tu.stop_time_update: ... stop_time_updates_data.append(...)] *)
Fixpoint stop_time_update_loop (feed_log_id : Z) (trip_id : string)
    (stus : list StopTimeUpdate.t) (stop_time_updates_data : list stop_time_update_row)
    : result (list stop_time_update_row) :=
  match stus with
  | [] => Ok stop_time_updates_data
  | stu :: rest =>
      row <~ stop_time_update_tuple feed_log_id trip_id stu ;;
      stop_time_update_loop feed_log_id trip_id rest (stop_time_updates_data ++ [row])
  end.

Definition trip_update_tuple (feed_log_id : Z) (tu : TripUpdate.t) : trip_update_row :=
  let trip_id := TripDescriptor.trip_id (TripUpdate.trip tu) in
  let route_id := TripDescriptor.route_id (TripUpdate.trip tu) in
  let start_date := TripDescriptor.start_date (TripUpdate.trip tu) in
  let schedule_rel := py_str_int (TripDescriptor.schedule_relationship (TripUpdate.trip tu)) in
  TripUpdateRow (PyInt feed_log_id) (PyStr trip_id) (PyStr route_id)
                (PyStr start_date) (PyStr schedule_rel).

(** [for entity in feed_message.entity: if entity.trip_update: ...] *)
Fixpoint trip_update_loop (feed_log_id : Z) (entities : list FeedEntity.t)
    (trip_updates_data : list trip_update_row)
    (stop_time_updates_data : list stop_time_update_row)
    : result (list trip_update_row * list stop_time_update_row) :=
  match entities with
  | [] => Ok (trip_updates_data, stop_time_updates_data)
  | entity :: rest =>
      if truth (FeedEntity.trip_update entity) then
        let tu := FeedEntity.trip_update entity in
        let trip_id := TripDescriptor.trip_id (TripUpdate.trip tu) in
        let trip_updates_data' := trip_updates_data ++ [trip_update_tuple feed_log_id tu] in
        stop_time_updates_data' <~
          stop_time_update_loop feed_log_id trip_id (TripUpdate.stop_time_update tu)
                                stop_time_updates_data ;;
        trip_update_loop feed_log_id rest trip_updates_data' stop_time_updates_data'
      else trip_update_loop feed_log_id rest trip_updates_data stop_time_updates_data
  end.

Definition vehicle_position_tuple (feed_log_id : Z) (v : VehiclePosition.t)
    : result vehicle_position_row :=
  let trip_id := TripDescriptor.trip_id (VehiclePosition.trip v) in
  let route_id := TripDescriptor.route_id (VehiclePosition.trip v) in
  let vehicle_id := VehicleDescriptor.id (VehiclePosition.vehicle v) in
  let stop_id := VehiclePosition.stop_id v in
  let current_status := py_str_int (VehiclePosition.current_status v) in
  let lat := if truth (VehiclePosition.position v)
             then PyFloat (Position.latitude (VehiclePosition.position v)) else PyNone in
  let lon := if truth (VehiclePosition.position v)
             then PyFloat (Position.longitude (VehiclePosition.position v)) else PyNone in
  let bearing := if truth (VehiclePosition.position v)
                 then PyFloat (Position.bearing (VehiclePosition.position v)) else PyNone in
  let speed := if truth (VehiclePosition.position v)
               then PyFloat (Position.speed (VehiclePosition.position v)) else PyNone in
  pos_ts <~ (if truth (VehiclePosition.timestamp v)
             then _ts_to_datetime (VehiclePosition.timestamp v) else Ok PyNone) ;;
  Ok (VehiclePositionRow (PyInt feed_log_id) (PyStr vehicle_id) (PyStr trip_id)
        (PyStr route_id) (PyStr stop_id) (PyStr current_status)
        lat lon bearing speed pos_ts).

(** [for entity in feed_message.entity: if entity.vehicle: ...] *)
Fixpoint vehicle_position_loop (feed_log_id : Z) (entities : list FeedEntity.t)
    (vehicle_positions_data : list vehicle_position_row)
    : result (list vehicle_position_row) :=
  match entities with
  | [] => Ok vehicle_positions_data
  | entity :: rest =>
      if truth (FeedEntity.vehicle entity) then
        row <~ vehicle_position_tuple feed_log_id (FeedEntity.vehicle entity) ;;
        vehicle_position_loop feed_log_id rest (vehicle_positions_data ++ [row])
      else vehicle_position_loop feed_log_id rest vehicle_positions_data
  end.

Definition service_alert_tuple (feed_log_id : Z) (a : Alert.t) : service_alert_row :=
  let header_text := _translate (Alert.header_text a) in
  let description_text := _translate (Alert.description_text a) in
  let cause := py_str_int (Alert.cause a) in
  let effect := py_str_int (Alert.effect a) in
  ServiceAlertRow (PyInt feed_log_id) (PyStr header_text) (PyStr description_text)
                  (PyStr cause) (PyStr effect).

(** [for entity in feed_message.entity: if entity.alert: ...] *)
Fixpoint service_alert_loop (feed_log_id : Z) (entities : list FeedEntity.t)
    (alerts_data : list service_alert_row) : list service_alert_row :=
  match entities with
  | [] => alerts_data
  | entity :: rest =>
      if truth (FeedEntity.alert entity) then
        service_alert_loop feed_log_id rest
          (alerts_data ++ [service_alert_tuple feed_log_id (FeedEntity.alert entity)])
      else service_alert_loop feed_log_id rest alerts_data
  end.

Section Collector.

Variable env : environment.

(** *** The driver calls *)

Definition record (c : db_call) (o : outcome) (w : world) : list (db_call * outcome) :=
  journal w ++ [(c, o)].

Definition db_error : exn := OperationalError "database call failed".

(** [cur.execute(sql, params)] followed by [cur.fetchone()[0]] for the
    audit INSERT ... RETURNING feed_log_id. *)
Definition execute_returning (p : feed_log_params) : M Z :=
  fun w =>
    let n := List.length (journal w) in
    if db_fault env n then
      (Raise db_error,
       World (tables w) (pending w) (record (Execute (InsertFeedLog p)) Raised w) (log w))
    else
      let id := serial env n in
      let row := FeedLogRow id (now env n) p in
      (Ok id,
       World (tables w)
             (db_append (pending w) (Database [row] [] [] [] []))
             (record (Execute (InsertFeedLog p)) (Returned id) w) (log w)).

Definition batch_rows (s : statement) : database :=
  match s with
  | InsertFeedLog _ => empty_database
  | InsertTripUpdates rows => Database [] rows [] [] []
  | InsertStopTimeUpdates rows => Database [] [] rows [] []
  | InsertVehiclePositions rows => Database [] [] [] rows []
  | InsertServiceAlerts rows => Database [] [] [] [] rows
  end.

(** [execute_values(cur, sql, data)] inside [with conn.cursor() as cur]. *)
Definition execute_values (s : statement) : M unit :=
  fun w =>
    let n := List.length (journal w) in
    if db_fault env n then
      (Raise db_error,
       World (tables w) (pending w) (record (Execute s) Raised w) (log w))
    else
      (Ok tt,
       World (tables w) (db_append (pending w) (batch_rows s))
             (record (Execute s) Done w) (log w)).

(** [conn.commit()] *)
Definition commit : M unit :=
  fun w =>
    let n := List.length (journal w) in
    if db_fault env n then
      (Raise db_error, World (tables w) (pending w) (record Commit Raised w) (log w))
    else
      (Ok tt,
       World (db_append (tables w) (pending w)) empty_database
             (record Commit Done w) (log w)).

(** [get_db_connection()]: a new connection has no open transaction. *)
Definition get_db_connection : M unit :=
  fun w =>
    if connect_fault env then (Raise (OperationalError "could not connect"), w)
    else (Ok tt, World (tables w) empty_database (journal w) (log w)).

(** [conn.close()]: what was not committed is rolled back. *)
Definition conn_close : M unit :=
  fun w => (Ok tt, World (tables w) empty_database (journal w) (log w)).

(** *** fetch_gtfs_rt_feed *)

Definition fetch_and_parse (feed_url : string) : result FeedMessage.t :=
  resp <~ requests_get env feed_url ;;
  _ <~ raise_for_status resp ;;
  feed_message <~ ParseFromString env (content resp) ;;
  Ok feed_message.

Definition fetch_gtfs_rt_feed (feed_url : string) : M (option FeedMessage.t) :=
  match fetch_and_parse feed_url with
  | Ok feed_message => ret (Some feed_message)
  | Raise e =>
      logging_error ("Error fetching feed from " ++ feed_url ++ ": " ++ exn_str e)%string ;;
      ret None
  end.

(** *** The three processors *)

Definition process_trip_updates (feed_log_id : Z) (feed_message : FeedMessage.t) : M unit :=
  data <- lift (trip_update_loop feed_log_id (FeedMessage.entity feed_message) [] []) ;;
  let trip_updates_data := fst data in
  let stop_time_updates_data := snd data in
  (if truth trip_updates_data then
     execute_values (InsertTripUpdates trip_updates_data) ;;
     commit ;;
     logging_info ("Inserted " ++ py_len trip_updates_data ++ " trip_updates.")%string
   else ret tt) ;;
  (if truth stop_time_updates_data then
     execute_values (InsertStopTimeUpdates stop_time_updates_data) ;;
     commit ;;
     logging_info ("Inserted " ++ py_len stop_time_updates_data ++ " stop_time_updates.")%string
   else ret tt).

Definition process_vehicle_positions (feed_log_id : Z) (feed_message : FeedMessage.t)
    : M unit :=
  vehicle_positions_data <-
    lift (vehicle_position_loop feed_log_id (FeedMessage.entity feed_message) []) ;;
  (if truth vehicle_positions_data then
     execute_values (InsertVehiclePositions vehicle_positions_data) ;;
     commit ;;
     logging_info ("Inserted " ++ py_len vehicle_positions_data ++ " vehicle_positions.")%string
   else ret tt).

Definition process_service_alerts (feed_log_id : Z) (feed_message : FeedMessage.t)
    : M unit :=
  let alerts_data := service_alert_loop feed_log_id (FeedMessage.entity feed_message) [] in
  (if truth alerts_data then
     execute_values (InsertServiceAlerts alerts_data) ;;
     commit ;;
     logging_info ("Inserted " ++ py_len alerts_data ++ " service_alerts.")%string
   else ret tt).

(** *** log_feed_fetch *)

Definition log_feed_fetch (feed_name feed_url : string) (feed_timestamp : pyval)
    (success : bool) (error_message : pyval) : M Z :=
  feed_log_id <-
    execute_returning (FeedLogParams (PyStr feed_url) (PyStr feed_name) feed_timestamp
                                     (PyBool success) error_message) ;;
  commit ;;
  ret feed_log_id.

(** *** main: the body of the [for] loop, the loop, and one round of
    [while True] (the sleep between rounds is not modelled).  In
    [if not feed_message], None is false and a FeedMessage object is true. *)

Definition poll_feed (feed_name feed_url : string) : M unit :=
  logging_info ("Fetching feed: " ++ feed_name ++ " from " ++ feed_url)%string ;;
  feed_message <- fetch_gtfs_rt_feed feed_url ;;
  match feed_message with
  | None =>
      log_feed_fetch feed_name feed_url PyNone false
                     (PyStr "Failed to fetch or parse protobuf") ;;
      ret tt
  | Some feed_message =>
      feed_timestamp <-
        lift (if truth (FeedHeader.timestamp (FeedMessage.header feed_message))
              then _ts_to_datetime (FeedHeader.timestamp (FeedMessage.header feed_message))
              else Ok PyNone) ;;
      feed_log_id <- log_feed_fetch feed_name feed_url feed_timestamp true PyNone ;;
      let has_trip_updates :=
        existsb (fun e => truth (FeedEntity.trip_update e)) (FeedMessage.entity feed_message) in
      let has_vehicle_positions :=
        existsb (fun e => truth (FeedEntity.vehicle e)) (FeedMessage.entity feed_message) in
      let has_alerts :=
        existsb (fun e => truth (FeedEntity.alert e)) (FeedMessage.entity feed_message) in
      (if has_trip_updates then process_trip_updates feed_log_id feed_message else ret tt) ;;
      (if has_vehicle_positions then process_vehicle_positions feed_log_id feed_message
       else ret tt) ;;
      (if has_alerts then process_service_alerts feed_log_id feed_message else ret tt)
  end.

Fixpoint poll_feeds (feeds : list (string * string)) : M unit :=
  match feeds with
  | [] => ret tt
  | (feed_name, feed_url) :: rest => poll_feed feed_name feed_url ;; poll_feeds rest
  end.

(** One round over [feeds]: connect, poll every feed, log whatever
    exception escapes, close the connection when there is one. *)
Definition poll_cycle (feeds : list (string * string)) : world -> world :=
  fun w =>
    let after_try :=
      match get_db_connection w with
      | (Raise e, w1) =>
          snd (logging_error ("Unexpected error: " ++ exn_str e)%string w1)
      | (Ok _, w1) =>
          let w3 :=
            match poll_feeds feeds w1 with
            | (Ok _, w2) => w2
            | (Raise e, w2) =>
                snd (logging_error ("Unexpected error: " ++ exn_str e)%string w2)
            end in
          snd (conn_close w3)
      end in
    snd (logging_info ("Sleeping " ++ py_str_int POLL_INTERVAL
                       ++ " seconds before next fetch...")%string after_try).

Definition main_cycle : world -> world := poll_cycle GTFS_RT_FEEDS.

End Collector.

(** ** Reading notions used by the statements *)

(** The number a decimal numeral denotes, when the string is one. *)
Definition decimal_value (s : string) : option Z :=
  option_map Z.of_int (NilZero.int_of_string s).

(** The calendar time a timestamp column must hold for epoch seconds [ts]. *)
Definition calendar_cell (ts : Z) (cell : pyval) : Prop :=
  exists d, utcfromtimestamp ts = Ok d /\ cell = PyDatetime d.

(** How many entities of a message really carry each payload. *)
Definition count_trip_update_entities (m : FeedMessage.t) : nat :=
  List.length (filter FeedEntity.has_trip_update (FeedMessage.entity m)).
Definition count_vehicle_entities (m : FeedMessage.t) : nat :=
  List.length (filter FeedEntity.has_vehicle (FeedMessage.entity m)).
Definition count_alert_entities (m : FeedMessage.t) : nat :=
  List.length (filter FeedEntity.has_alert (FeedMessage.entity m)).

(** The text [_translate] must return for an optional translated string: the
    first translation's text when the container is present and not empty. *)
Definition first_translation (o : option TranslatedString.t) : string :=
  match o with
  | Some (TranslatedString.Make (first :: _)) => Translation.text first
  | _ => ""%string
  end.

(** ** Concrete inputs *)

(** A vehicle payload with no position sub-message: the four position columns
    hold the float 0.0 of the default [Position], not None. *)
Definition vehicle_without_position : VehiclePosition.t :=
  VehiclePosition.Make (TripDescriptor.Make "T1" "R1" "20240101" 0)
                       (VehicleDescriptor.Make "V1") None "S1" 1 (Some 1704100000).

(** ** Rows that reference an attempt *)

Definition refs_stu (id : Z) (r : stop_time_update_row) : Prop := stu_feed_log_id r = PyInt id.
Definition refs_tu (id : Z) (r : trip_update_row) : Prop := tu_feed_log_id r = PyInt id.
Definition refs_vp (id : Z) (r : vehicle_position_row) : Prop := vp_feed_log_id r = PyInt id.
Definition refs_sa (id : Z) (r : service_alert_row) : Prop := sa_feed_log_id r = PyInt id.

(** The stop time updates of the payloads the trip-update loop visits. *)
Definition visited_stop_time_updates (entities : list FeedEntity.t) : list StopTimeUpdate.t :=
  flat_map (fun e => TripUpdate.stop_time_update (FeedEntity.trip_update e)) entities.

(** ** Relations on runs *)

Definition status {A : Type} (r : result A) : option exn :=
  match r with Ok _ => None | Raise e => Some e end.

Definition run_relation : Type := world -> option exn -> world -> Prop.

Definition obeys {A : Type} (R : run_relation) (m : M A) : Prop :=
  forall w, R w (status (fst (m w))) (snd (m w)).

Class Sequential (R : run_relation) : Prop := {
  seq_stay : forall w s, R w s w;
  seq_then : forall w w1 w2 s, R w None w1 -> R w1 s w2 -> R w s w2 }.

Definition no_fault (l : list (db_call * outcome)) : Prop :=
  Forall (fun c => snd c <> Raised) l.

(** The calls of a run: none raised when it returned; when it raised, either
    none did (the exception came from a conversion) or exactly the last one
    did and the exception is the driver's. *)
Definition fault_shape (s : option exn) (l : list (db_call * outcome)) : Prop :=
  match s with
  | None => no_fault l
  | Some e =>
      no_fault l
      \/ (e = db_error /\ exists pre c, l = pre ++ [(c, Raised)] /\ no_fault pre)
  end.

Definition aborts_on_fault : run_relation :=
  fun w s w' =>
    exists suffix delta,
      journal w' = journal w ++ suffix
      /\ fault_shape s suffix
      /\ tables w' = db_append (tables w) delta.

Definition world0 : world := World empty_database empty_database [] [].

(** An environment that answers every request with status 200, decodes every
    payload to [m], and whose database raises exactly at the calls listed in
    [faults]; ids are 100, 101, ... by call number. *)
Definition env_serving (m : FeedMessage.t) (faults : list nat) : environment :=
  Environment (fun _ => Ok (Response 200 []))
              (fun _ => Ok m)
              false
              (fun n => existsb (Nat.eqb n) faults)
              (fun n => 100 + Z.of_nat n)
              (fun n => 1704100000 + Z.of_nat n).

Definition trip_T1 : TripUpdate.t :=
  TripUpdate.Make (TripDescriptor.Make "T1" "R1" "20240101" 0)
    [ StopTimeUpdate.Make 1 "S1" None None;
      StopTimeUpdate.Make 2 "S2" (Some (StopTimeEvent.Make (Some 30) (Some 1704100000))) None ].

Definition vehicle_V1 : VehiclePosition.t :=
  VehiclePosition.Make (TripDescriptor.Make "T1" "R1" "20240101" 0)
    (VehicleDescriptor.Make "V1")
    (Some (Position.Make (F32 1109603942) (F32 3264459244) float_zero float_zero))
    "S1" 1 (Some 1704100000).

(** A message with one trip-update entity and one vehicle entity. *)
Definition message_trip_and_vehicle : FeedMessage.t :=
  FeedMessage.Make (FeedHeader.Make (Some 1704100000))
    [ FeedEntity.Make "e1" (Some trip_T1) None None;
      FeedEntity.Make "e2" None (Some vehicle_V1) None ].

(** A message whose only entity carries a vehicle payload. *)
Definition message_vehicle_only : FeedMessage.t :=
  FeedMessage.Make (FeedHeader.Make (Some 1704100000))
    [ FeedEntity.Make "e1" None (Some vehicle_V1) None ].

Definition entity_statement_refs (id : Z) (s : statement) : Prop :=
  match s with
  | InsertFeedLog _ => False
  | InsertTripUpdates rows => Forall (refs_tu id) rows
  | InsertStopTimeUpdates rows => Forall (refs_stu id) rows
  | InsertVehiclePositions rows => Forall (refs_vp id) rows
  | InsertServiceAlerts rows => Forall (refs_sa id) rows
  end.

(** A call made while writing the entities of attempt [id]: a commit, or a
    batch all of whose rows carry [id]. *)
Definition call_refs (id : Z) (c : db_call * outcome) : Prop :=
  match fst c with
  | Commit => True
  | Execute s => entity_statement_refs id s
  end.

(** A call of the audit insert itself. *)
Definition audit_call (c : db_call * outcome) : Prop :=
  match fst c with
  | Commit => True
  | Execute (InsertFeedLog _) => True
  | Execute _ => False
  end.

(** Entity rows only, all carrying [id]. *)
Definition db_refs (id : Z) (d : database) : Prop :=
  realtime_feed_logs d = []
  /\ Forall (refs_tu id) (realtime_trip_updates d)
  /\ Forall (refs_stu id) (realtime_stop_time_updates d)
  /\ Forall (refs_vp id) (realtime_vehicle_positions d)
  /\ Forall (refs_sa id) (realtime_service_alerts d).

(** [w] is reached from [w0] by entity writes of attempt [id] alone. *)
Definition attempt_scope (id : Z) (w0 w : world) : Prop :=
  exists suffix delta,
    journal w = journal w0 ++ suffix
    /\ Forall (call_refs id) suffix
    /\ tables w = db_append (tables w0) delta
    /\ db_refs id delta
    /\ db_refs id (pending w).

Definition within_attempt (id : Z) (w0 : world) : run_relation :=
  fun w _ w' => attempt_scope id w0 w -> attempt_scope id w0 w'.

Definition audit_params (feed_name feed_url : string) (ts : pyval) (ok : bool)
    (msg : pyval) : feed_log_params :=
  FeedLogParams (PyStr feed_url) (PyStr feed_name) ts (PyBool ok) msg.

Definition FAILED_TO_FETCH : pyval := PyStr "Failed to fetch or parse protobuf".

(** The world in which the audit insert of a failed fetch runs: two log
    records later, the database untouched. *)
Definition after_fetch_error (feed_name feed_url : string) (e : exn) (w : world) : world :=
  World (tables w) (pending w) (journal w)
        ((log w ++ [LogInfo ("Fetching feed: " ++ feed_name ++ " from " ++ feed_url)%string])
         ++ [LogError ("Error fetching feed from " ++ feed_url ++ ": " ++ exn_str e)%string]).

(** A request that times out. *)
Definition env_timeout : environment :=
  Environment (fun _ => Raise (RequestException "Read timed out. (read timeout=30)"))
              (fun _ => Raise (DecodeError "Error parsing message"))
              false (fun _ => false)
              (fun n => 100 + Z.of_nat n) (fun n => 1704100000 + Z.of_nat n).

(** A request answered with status 200 and a payload that does not decode. *)
Definition env_malformed : environment :=
  Environment (fun _ => Ok (Response 200 [Byte.xff; Byte.x00]))
              (fun _ => Raise (DecodeError "Error parsing message"))
              false (fun _ => false)
              (fun n => 100 + Z.of_nat n) (fun n => 1704100000 + Z.of_nat n).

(** Two worlds with the same database side (they may differ in their logs). *)
Definition same_database_side (w1 w2 : world) : Prop :=
  tables w1 = tables w2 /\ pending w1 = pending w2 /\ journal w1 = journal w2.

(** Two environments whose databases behave alike. *)
Definition same_database (env1 env2 : environment) : Prop :=
  (forall n, db_fault env1 n = db_fault env2 n)
  /\ (forall n, serial env1 n = serial env2 n)
  /\ (forall n, now env1 n = now env2 n).

Definition run_vehicle_only : result unit * world :=
  poll_feed (env_serving message_vehicle_only []) "F" "u" world0.

(** A database that accepts every call. *)
Definition no_db_fault (env : environment) : Prop := forall n, db_fault env n = false.

(** A run that starts with no open transaction and returns normally leaves
    none open. *)
Definition closes_transaction : run_relation :=
  fun w s w' => pending w = empty_database -> s = None -> pending w' = empty_database.

(** ** Transactions *)

(** The calls of a run made of whole transactions, each of one statement
    followed by its commit. *)
Fixpoint whole_transactions (l : list (db_call * outcome)) : Prop :=
  match l with
  | [] => True
  | (Execute _, o) :: (Commit, Done) :: rest => o <> Raised /\ whole_transactions rest
  | _ => False
  end.

(** A transaction cut short: its statement raised, or its commit did. *)
Definition broken_transaction (l : list (db_call * outcome)) : Prop :=
  (exists s, l = [(Execute s, Raised)])
  \/ (exists s o, o <> Raised /\ l = [(Execute s, o); (Commit, Raised)]).

(** The rows a statement adds when it is executed as call number [n] with
    outcome [o]: the audit row with the returned id and the time of the
    call, or the rows of the batch. *)
Definition statement_rows (env : environment) (n : nat) (s : statement) (o : outcome)
    : database :=
  match s, o with
  | InsertFeedLog p, Returned id => Database [FeedLogRow id (now env n) p] [] [] [] []
  | _, _ => batch_rows s
  end.

(** The rows of a sequence of whole transactions whose first call has
    number [n], in the order they were committed. *)
Fixpoint transaction_rows (env : environment) (n : nat) (l : list (db_call * outcome))
    : database :=
  match l with
  | (Execute s, o) :: (Commit, Done) :: rest =>
      db_append (statement_rows env n s o) (transaction_rows env (S (S n)) rest)
  | _ => empty_database
  end.

(** A run that starts with no open transaction: its calls are whole
    transactions, followed, only when it raised, by at most one transaction
    cut short; the tables gain exactly the rows of the whole transactions;
    when it returned, no transaction is left open. *)
Definition commits_persist (env : environment) : run_relation :=
  fun w s w' =>
    pending w = empty_database ->
    exists done last,
      journal w' = journal w ++ done ++ last
      /\ whole_transactions done
      /\ match s with
         | None => last = [] /\ pending w' = empty_database
         | Some e => last = [] \/ (broken_transaction last /\ e = db_error)
         end
      /\ tables w' = db_append (tables w) (transaction_rows env (List.length (journal w)) done).

(** The conversion of the header timestamp in main:
    [_ts_to_datetime(ts) if ts else None]. *)
Definition header_timestamp_cell (m : FeedMessage.t) : result pyval :=
  if truth (FeedHeader.timestamp (FeedMessage.header m))
  then _ts_to_datetime (FeedHeader.timestamp (FeedMessage.header m))
  else Ok PyNone.

(** ** Notions for the further properties *)

(** The exception of a timestamp that datetime cannot hold. *)
Definition YEAR_OUT_OF_RANGE : exn := ValueError "year is out of range".

(** Timestamps that [utcfromtimestamp] accepts, over a stop time update, an
    entity and a message (0, the value of an unset field, is in range). *)
Definition stop_time_update_in_range (u : StopTimeUpdate.t) : bool :=
  in_datetime_range (StopTimeEvent.time (StopTimeUpdate.arrival u))
  && in_datetime_range (StopTimeEvent.time (StopTimeUpdate.departure u)).

Definition entity_stop_times_in_range (e : FeedEntity.t) : bool :=
  forallb stop_time_update_in_range (TripUpdate.stop_time_update (FeedEntity.trip_update e)).

Definition entity_in_range (e : FeedEntity.t) : bool :=
  entity_stop_times_in_range e
  && in_datetime_range (VehiclePosition.timestamp (FeedEntity.vehicle e)).

Definition message_in_range (m : FeedMessage.t) : bool :=
  in_datetime_range (FeedHeader.timestamp (FeedMessage.header m))
  && forallb entity_in_range (FeedMessage.entity m).

(** What an audit row says about its poll: the feed name, the url and the
    success flag. *)
Definition audit_summary (r : feed_log_row) : pyval * pyval * pyval :=
  (flp_feed_name (fl_params r), flp_feed_url (fl_params r), flp_success (fl_params r)).

(** Whether the fetch and decode of a feed of the catalog succeed. *)
Definition fetch_succeeds (env : environment) (feed : string * string) : bool :=
  match fetch_and_parse env (snd feed) with Ok _ => true | Raise _ => false end.

Definition expected_audit (env : environment) (feed : string * string)
    : pyval * pyval * pyval :=
  (PyStr (fst feed), PyStr (snd feed), PyBool (fetch_succeeds env feed)).

(** A feed whose message, when it decodes, has all its timestamps in the
    range of datetime. *)
Definition feed_in_range (env : environment) (feed : string * string) : bool :=
  match fetch_and_parse env (snd feed) with
  | Ok m => message_in_range m
  | Raise _ => true
  end.

(** The columns that tie a stop-time row to its trip update and keep its
    place: attempt id, trip id, stop id, stop sequence. *)
Definition stop_time_key (r : stop_time_update_row) : pyval * pyval * pyval * pyval :=
  (stu_feed_log_id r, stu_trip_id r, stu_stop_id r, stu_stop_sequence r).

Definition expected_stop_time_key (feed_log_id : Z) (trip_id : string)
    (stu : StopTimeUpdate.t) : pyval * pyval * pyval * pyval :=
  (PyInt feed_log_id, PyStr trip_id, PyStr (StopTimeUpdate.stop_id stu),
   PyInt (StopTimeUpdate.stop_sequence stu)).

Definition expected_stop_time_keys (feed_log_id : Z) (e : FeedEntity.t)
    : list (pyval * pyval * pyval * pyval) :=
  map (expected_stop_time_key feed_log_id
         (TripDescriptor.trip_id (TripUpdate.trip (FeedEntity.trip_update e))))
      (TripUpdate.stop_time_update (FeedEntity.trip_update e)).

(** ** The calendar, backwards *)

(** Days since 1970-01-01 of a proleptic Gregorian date, and the epoch
    seconds of a datetime read as UTC ([calendar.timegm]). *)
Definition days_from_civil (y m d : Z) : Z :=
  let y' := if m <=? 2 then y - 1 else y in
  let era := y' / 400 in
  let yoe := y' - era * 400 in
  let mp := if 2 <? m then m - 3 else m + 9 in
  let doy := (153 * mp + 2) / 5 + d - 1 in
  let doe := yoe * 365 + yoe / 4 - yoe / 100 + doy in
  era * 146097 + doe - 719468.

Definition timegm (d : datetime) : Z :=
  days_from_civil (dt_year d) (dt_month d) (dt_day d) * 86400
  + dt_hour d * 3600 + dt_minute d * 60 + dt_second d.

Definition is_leap (y : Z) : bool :=
  ((y mod 4 =? 0) && negb (y mod 100 =? 0)) || (y mod 400 =? 0).

Definition days_in_month (y m : Z) : Z :=
  if m =? 2 then (if is_leap y then 29 else 28)
  else if (m =? 4) || (m =? 6) || (m =? 9) || (m =? 11) then 30
  else 31.

(** Length of the month number [mp] of a year that starts in March. *)
Definition shifted_month_length (mp : Z) : Z :=
  if mp =? 11 then 29
  else if (mp =? 1) || (mp =? 3) || (mp =? 6) || (mp =? 8) then 30
  else 31.

Definition month_day_ok (doy : Z) : bool :=
  let mp := (5 * doy + 2) / 153 in
  let d := doy - (153 * mp + 2) / 5 + 1 in
  (0 <=? mp) && (mp <=? 11) && (1 <=? d) && (d <=? shifted_month_length mp)
  && ((mp <? 10) || (306 <=? doy))
  && (negb (mp <? 10) || (doy <? 306))
  && (negb ((mp =? 11) && (d =? 29)) || (doy =? 365)).

(** The fields of a date that exists, with a time of day. *)
Definition valid_datetime (d : datetime) : Prop :=
  1 <= dt_year d <= 9999
  /\ 1 <= dt_month d <= 12
  /\ 1 <= dt_day d <= days_in_month (dt_year d) (dt_month d)
  /\ 0 <= dt_hour d < 24
  /\ 0 <= dt_minute d < 60
  /\ 0 <= dt_second d < 60.

(** ** More concrete inputs *)

(** The first second after the last datetime. *)
Definition FAR_FUTURE : Z := MAX_TIMESTAMP + 1.   (* 10000-01-01 00:00:00 *)

Definition message_far_future_header : FeedMessage.t :=
  FeedMessage.Make (FeedHeader.Make (Some FAR_FUTURE))
    [ FeedEntity.Make "e1" (Some trip_T1) None None ].



(** * Properties *)

(** ** Values and conversions *)

Lemma py_str_int_decimal (n : Z) : decimal_value (py_str_int n) = Some n.
Proof.
  unfold decimal_value, py_str_int.
  rewrite NilZero.isi.
  - cbn. now rewrite DecimalZ.of_to.
  - destruct n; cbn; try discriminate.
    intros H. injection H as H. now apply Unsigned.to_uint_nonnil in H.
  - destruct n; cbn; try discriminate.
    intros H. injection H as H. now apply Unsigned.to_uint_nonnil in H.
Qed.

Lemma py_str_int_inj (a b : Z) : py_str_int a = py_str_int b -> a = b.
Proof.
  intros H. apply (f_equal decimal_value) in H.
  rewrite !py_str_int_decimal in H. congruence.
Qed.

Example utcfromtimestamp_epoch :
  utcfromtimestamp 0 = Ok (Datetime 1970 1 1 0 0 0).
Proof. reflexivity. Qed.

Example utcfromtimestamp_2024 :
  utcfromtimestamp 1704100000 = Ok (Datetime 2024 1 1 9 6 40).
Proof. reflexivity. Qed.

Example utcfromtimestamp_leap_day :
  utcfromtimestamp 951782400 = Ok (Datetime 2000 2 29 0 0 0).
Proof. reflexivity. Qed.

Example utcfromtimestamp_overflow :
  utcfromtimestamp (MAX_TIMESTAMP + 1) = Raise (ValueError "year is out of range").
Proof. reflexivity. Qed.

Lemma utcfromtimestamp_in_range (ts : Z) :
  in_datetime_range ts = true -> exists d, utcfromtimestamp ts = Ok d.
Proof.
  intros H. unfold utcfromtimestamp. rewrite H.
  destruct (civil_from_days (ts / 86400)) as [[y m] d]. eauto.
Qed.

Lemma utcfromtimestamp_out_of_range (ts : Z) :
  in_datetime_range ts = false ->
  utcfromtimestamp ts = Raise (ValueError "year is out of range").
Proof. intros H. unfold utcfromtimestamp. now rewrite H. Qed.

(** [_ts_to_datetime] yields None for 0, the calendar time for a timestamp
    in range, and raises otherwise. *)
Lemma ts_to_datetime_cases (ts : Z) :
  match _ts_to_datetime ts with
  | Ok cell => (ts = 0 /\ cell = PyNone) \/ (ts <> 0 /\ calendar_cell ts cell)
  | Raise _ => ts <> 0 /\ in_datetime_range ts = false
  end.
Proof.
  unfold _ts_to_datetime, truth, truth_int.
  destruct (Z.eqb_spec ts 0) as [-> | Hne]; cbn; [now left |].
  destruct (in_datetime_range ts) eqn:Hr.
  - destruct (utcfromtimestamp_in_range ts Hr) as [d Hd]. rewrite Hd. cbn.
    right. split; [assumption | now exists d].
  - rewrite (utcfromtimestamp_out_of_range ts Hr). cbn. now split.
Qed.

(** The guard [x.time if (x and x.time)] followed by [_ts_to_datetime]. *)
Lemma guarded_time_cases (ev : StopTimeEvent.t) :
  match (if truth ev && truth (StopTimeEvent.time ev)
         then _ts_to_datetime (StopTimeEvent.time ev) else Ok PyNone) with
  | Ok cell =>
      (StopTimeEvent.time ev = 0 /\ cell = PyNone)
      \/ (StopTimeEvent.time ev <> 0 /\ calendar_cell (StopTimeEvent.time ev) cell)
  | Raise _ => StopTimeEvent.time ev <> 0 /\ in_datetime_range (StopTimeEvent.time ev) = false
  end.
Proof.
  pose proof (ts_to_datetime_cases (StopTimeEvent.time ev)) as H.
  change (truth ev) with true. cbn [andb].
  unfold truth at 1, truth_int.
  destruct (Z.eqb_spec (StopTimeEvent.time ev) 0) as [E | E]; cbn [negb].
  - now left.
  - exact H.
Qed.

Lemma absent_event_time (u : StopTimeUpdate.t) :
  StopTimeUpdate.arrival_opt u = None -> StopTimeEvent.time (StopTimeUpdate.arrival u) = 0.
Proof. unfold StopTimeUpdate.arrival. now intros ->. Qed.

Lemma absent_event_delay (u : StopTimeUpdate.t) :
  StopTimeUpdate.arrival_opt u = None -> StopTimeEvent.delay (StopTimeUpdate.arrival u) = 0.
Proof. unfold StopTimeUpdate.arrival. now intros ->. Qed.

Lemma absent_departure_time (u : StopTimeUpdate.t) :
  StopTimeUpdate.departure_opt u = None ->
  StopTimeEvent.time (StopTimeUpdate.departure u) = 0.
Proof. unfold StopTimeUpdate.departure. now intros ->. Qed.

(** ** Stop time updates *)

Lemma guarded_delay_zero (ev : StopTimeEvent.t) :
  StopTimeEvent.delay ev = 0 ->
  (if truth ev && truth (StopTimeEvent.delay ev)
   then PyInt (StopTimeEvent.delay ev) else PyNone) = PyNone.
Proof. intros ->. reflexivity. Qed.

(** The tuple is built unless a non-zero time lies outside the years
    datetime can hold. *)
Lemma stop_time_update_tuple_total (feed_log_id : Z) (trip_id : string)
    (stu : StopTimeUpdate.t) :
  (StopTimeEvent.time (StopTimeUpdate.arrival stu) = 0
   \/ in_datetime_range (StopTimeEvent.time (StopTimeUpdate.arrival stu)) = true) ->
  (StopTimeEvent.time (StopTimeUpdate.departure stu) = 0
   \/ in_datetime_range (StopTimeEvent.time (StopTimeUpdate.departure stu)) = true) ->
  exists row, stop_time_update_tuple feed_log_id trip_id stu = Ok row.
Proof.
  intros Ha Hd. unfold stop_time_update_tuple.
  pose proof (guarded_time_cases (StopTimeUpdate.arrival stu)) as Ga.
  pose proof (guarded_time_cases (StopTimeUpdate.departure stu)) as Gd.
  destruct (if truth (StopTimeUpdate.arrival stu) && _ then _ else _) as [ca | ea].
  - destruct (if truth (StopTimeUpdate.departure stu) && _ then _ else _) as [cd | ed].
    + cbn. eauto.
    + exfalso. destruct Gd as [Hnz Hr]. destruct Hd; congruence.
  - exfalso. destruct Ga as [Hnz Hr]. destruct Ha; congruence.
Qed.

Lemma stop_time_update_tuple_feed_log_id (feed_log_id : Z) (trip_id : string)
    (stu : StopTimeUpdate.t) (row : stop_time_update_row) :
  stop_time_update_tuple feed_log_id trip_id stu = Ok row ->
  stu_feed_log_id row = PyInt feed_log_id.
Proof.
  unfold stop_time_update_tuple.
  destruct (if truth (StopTimeUpdate.arrival stu) && _ then _ else _); [| discriminate].
  destruct (if truth (StopTimeUpdate.departure stu) && _ then _ else _); [| discriminate].
  cbn. intros H. injection H as <-. reflexivity.
Qed.

(** C3. For every stop-time-update element the row that is produced has
    arrival_time null when the arrival sub-message is absent or its time is
    zero, departure_time null under the same rule for the departure
    sub-message, and delay_seconds null when the arrival delay is absent or
    exactly 0.  The row is produced unless a non-zero time is outside the
    range of datetime. *)
Theorem C3_stop_time_update_nulls :
  forall (feed_log_id : Z) (trip_id : string) (stu : StopTimeUpdate.t),
    match stop_time_update_tuple feed_log_id trip_id stu with
    | Ok row =>
        (StopTimeUpdate.arrival_opt stu = None
         \/ StopTimeEvent.time (StopTimeUpdate.arrival stu) = 0 ->
         stu_arrival_time row = PyNone)
        /\ (StopTimeUpdate.departure_opt stu = None
            \/ StopTimeEvent.time (StopTimeUpdate.departure stu) = 0 ->
            stu_departure_time row = PyNone)
        /\ (StopTimeUpdate.arrival_opt stu = None
            \/ StopTimeEvent.delay_opt (StopTimeUpdate.arrival stu) = None
            \/ StopTimeEvent.delay (StopTimeUpdate.arrival stu) = 0 ->
            stu_delay_seconds row = PyNone)
    | Raise _ =>
        in_datetime_range (StopTimeEvent.time (StopTimeUpdate.arrival stu)) = false
        \/ in_datetime_range (StopTimeEvent.time (StopTimeUpdate.departure stu)) = false
    end.
Proof.
  intros feed_log_id trip_id stu. unfold stop_time_update_tuple.
  pose proof (guarded_time_cases (StopTimeUpdate.arrival stu)) as Ga.
  pose proof (guarded_time_cases (StopTimeUpdate.departure stu)) as Gd.
  destruct (if truth (StopTimeUpdate.arrival stu) && _ then _ else _) as [ca | ea];
    [| cbn; left; tauto].
  destruct (if truth (StopTimeUpdate.departure stu) && _ then _ else _) as [cd | ed];
    [| cbn; right; tauto].
  cbn [rbind stu_arrival_time stu_departure_time stu_delay_seconds].
  repeat split.
  - intros H.
    assert (Hz : StopTimeEvent.time (StopTimeUpdate.arrival stu) = 0)
      by (destruct H; [now apply absent_event_time | assumption]).
    destruct Ga as [[_ ->] | [Hnz _]]; [reflexivity | contradiction].
  - intros H.
    assert (Hz : StopTimeEvent.time (StopTimeUpdate.departure stu) = 0)
      by (destruct H; [now apply absent_departure_time | assumption]).
    destruct Gd as [[_ ->] | [Hnz _]]; [reflexivity | contradiction].
  - intros H. apply guarded_delay_zero.
    destruct H as [H | [H | H]].
    + now apply absent_event_delay.
    + unfold StopTimeEvent.delay. now rewrite H.
    + assumption.
Qed.

(** A stop time update with only a stop id, and one with an arrival at
    1704100000 and a delay of 30 seconds. *)
Example stop_time_update_tuple_examples :
  stop_time_update_tuple 7 "T1" (StopTimeUpdate.Make 1 "S1" None None)
  = Ok (StopTimeUpdateRow (PyInt 7) (PyStr "T1") (PyStr "S1") (PyInt 1)
          PyNone PyNone PyNone)
  /\ stop_time_update_tuple 7 "T1"
       (StopTimeUpdate.Make 2 "S2"
          (Some (StopTimeEvent.Make (Some 30) (Some 1704100000))) None)
     = Ok (StopTimeUpdateRow (PyInt 7) (PyStr "T1") (PyStr "S2") (PyInt 2)
             (PyDatetime (Datetime 2024 1 1 9 6 40)) PyNone (PyInt 30))
  /\ stop_time_update_tuple 7 "T1"
       (StopTimeUpdate.Make 3 "S3"
          (Some (StopTimeEvent.Make (Some 0) (Some 1704100000))) None)
     = Ok (StopTimeUpdateRow (PyInt 7) (PyStr "T1") (PyStr "S3") (PyInt 3)
             (PyDatetime (Datetime 2024 1 1 9 6 40)) PyNone PyNone).
Proof. repeat split. Qed.

(** ** Service alerts *)

Lemma translate_cases (s : TranslatedString.t) :
  _translate s = match TranslatedString.translation s with
                 | first :: _ => Translation.text first
                 | [] => ""%string
                 end.
Proof. unfold _translate. destruct (TranslatedString.translation s); reflexivity. Qed.

Lemma service_alert_loop_app (feed_log_id : Z) (entities : list FeedEntity.t)
    (alerts_data : list service_alert_row) :
  service_alert_loop feed_log_id entities alerts_data
  = alerts_data
    ++ map (fun e => service_alert_tuple feed_log_id (FeedEntity.alert e)) entities.
Proof.
  revert alerts_data. induction entities as [| e rest IH]; intros acc; cbn.
  - now rewrite app_nil_r.
  - change (truth (FeedEntity.alert e)) with true. cbn iota.
    rewrite IH, <- app_assoc. reflexivity.
Qed.

(** C5. Every alert yields one row, at its place in the batch, whose header
    and description texts are the first translation's text when the
    translated string is present with at least one translation and the empty
    string otherwise, never None. *)
Theorem C5_alert_texts :
  forall (feed_log_id : Z) (a : Alert.t) (before after : list FeedEntity.t)
         (id : string) (tu : option TripUpdate.t) (v : option VehiclePosition.t),
    let row := service_alert_tuple feed_log_id a in
    sa_header_text row = PyStr (first_translation (Alert.header_text_opt a))
    /\ sa_description_text row = PyStr (first_translation (Alert.description_text_opt a))
    /\ sa_header_text row <> PyNone
    /\ sa_description_text row <> PyNone
    /\ first_translation (Some (TranslatedString.Make [])) = ""%string
    /\ first_translation None = ""%string
    /\ service_alert_loop feed_log_id
         (before ++ FeedEntity.Make id tu v (Some a) :: after) []
       = service_alert_loop feed_log_id before []
         ++ row :: service_alert_loop feed_log_id after [].
Proof.
  intros feed_log_id a before after id tu v row.
  assert (Hh : sa_header_text row = PyStr (first_translation (Alert.header_text_opt a))).
  { subst row. cbn. rewrite translate_cases. unfold Alert.header_text.
    destruct (Alert.header_text_opt a) as [[[| t ts]] |]; reflexivity. }
  assert (Hd : sa_description_text row
               = PyStr (first_translation (Alert.description_text_opt a))).
  { subst row. cbn. rewrite translate_cases. unfold Alert.description_text.
    destruct (Alert.description_text_opt a) as [[[| t ts]] |]; reflexivity. }
  repeat split; try assumption; try reflexivity.
  - rewrite Hh. discriminate.
  - rewrite Hd. discriminate.
  - rewrite !service_alert_loop_app. cbn. rewrite map_app. reflexivity.
Qed.

Example alert_with_empty_translation_list :
  sa_header_text
    (service_alert_tuple 7 (Alert.Make (Some (TranslatedString.Make [])) None 1 8))
  = PyStr "".
Proof. reflexivity. Qed.

(** ** Vehicle positions *)

Lemma vehicle_position_tuple_cases (feed_log_id : Z) (v : VehiclePosition.t) :
  match vehicle_position_tuple feed_log_id v with
  | Ok row =>
      row = VehiclePositionRow (PyInt feed_log_id)
              (PyStr (VehicleDescriptor.id (VehiclePosition.vehicle v)))
              (PyStr (TripDescriptor.trip_id (VehiclePosition.trip v)))
              (PyStr (TripDescriptor.route_id (VehiclePosition.trip v)))
              (PyStr (VehiclePosition.stop_id v))
              (PyStr (py_str_int (VehiclePosition.current_status v)))
              (PyFloat (Position.latitude (VehiclePosition.position v)))
              (PyFloat (Position.longitude (VehiclePosition.position v)))
              (PyFloat (Position.bearing (VehiclePosition.position v)))
              (PyFloat (Position.speed (VehiclePosition.position v)))
              (vp_position_timestamp row)
      /\ ((VehiclePosition.timestamp v = 0 /\ vp_position_timestamp row = PyNone)
          \/ (VehiclePosition.timestamp v <> 0
              /\ calendar_cell (VehiclePosition.timestamp v) (vp_position_timestamp row)))
  | Raise _ =>
      VehiclePosition.timestamp v <> 0
      /\ in_datetime_range (VehiclePosition.timestamp v) = false
  end.
Proof.
  unfold vehicle_position_tuple.
  pose proof (ts_to_datetime_cases (VehiclePosition.timestamp v)) as H.
  change (truth (VehiclePosition.position v)) with true. cbn iota.
  unfold truth at 1, truth_int.
  destruct (Z.eqb_spec (VehiclePosition.timestamp v) 0) as [E | E]; cbn [negb].
  - cbn. split; [reflexivity | now left].
  - destruct (_ts_to_datetime (VehiclePosition.timestamp v)) as [cell | e]; cbn.
    + split; [reflexivity | exact H].
    + exact H.
Qed.

(** C2, at a vehicle entity that has no position sub-message: the row is
    produced and its timestamp is the calendar time, but latitude, longitude,
    bearing and speed are 0.0 where the claim wants null. *)
Theorem C2_position_columns_without_position :
  VehiclePosition.position_opt vehicle_without_position = None
  /\ exists row,
       vehicle_position_tuple 7 vehicle_without_position = Ok row
       /\ vp_lat row = PyFloat float_zero
       /\ vp_lon row = PyFloat float_zero
       /\ vp_bearing row = PyFloat float_zero
       /\ vp_speed row = PyFloat float_zero
       /\ vp_lat row <> PyNone
       /\ vp_position_timestamp row = PyDatetime (Datetime 2024 1 1 9 6 40).
Proof.
  split; [reflexivity |].
  eexists. split; [reflexivity |].
  cbn. repeat split; discriminate.
Qed.

(** Whatever the vehicle payload, the position columns are never None: the
    test [if v.position] is on a message object. *)
Lemma vehicle_position_columns_never_none (feed_log_id : Z) (v : VehiclePosition.t)
    (row : vehicle_position_row) :
  vehicle_position_tuple feed_log_id v = Ok row ->
  vp_lat row <> PyNone /\ vp_lon row <> PyNone
  /\ vp_bearing row <> PyNone /\ vp_speed row <> PyNone.
Proof.
  intros H. pose proof (vehicle_position_tuple_cases feed_log_id v) as C.
  rewrite H in C. destruct C as [-> _]. cbn. repeat split; discriminate.
Qed.

(** The timestamp column: None for a zero or absent timestamp, the UTC
    calendar time otherwise. *)
Lemma vehicle_position_timestamp (feed_log_id : Z) (v : VehiclePosition.t)
    (row : vehicle_position_row) :
  vehicle_position_tuple feed_log_id v = Ok row ->
  (VehiclePosition.timestamp v = 0 -> vp_position_timestamp row = PyNone)
  /\ (VehiclePosition.timestamp v <> 0 ->
      calendar_cell (VehiclePosition.timestamp v) (vp_position_timestamp row)).
Proof.
  intros H. pose proof (vehicle_position_tuple_cases feed_log_id v) as C.
  rewrite H in C. destruct C as [_ [[Hz Hn] | [Hnz Hc]]]; split; intros; tauto.
Qed.

(** ** Enum columns *)

(** C10. The enum columns (schedule_relationship, current_status, cause,
    effect) hold the decimal numeral of the enum's number: the string reads
    back as that number, and the number 0 is stored as the string 0. *)
Theorem C10_enum_columns_are_decimal :
  forall (feed_log_id : Z) (tu : TripUpdate.t) (v : VehiclePosition.t) (a : Alert.t),
    (exists s, tu_schedule_relationship (trip_update_tuple feed_log_id tu) = PyStr s
       /\ decimal_value s = Some (TripDescriptor.schedule_relationship (TripUpdate.trip tu)))
    /\ match vehicle_position_tuple feed_log_id v with
       | Ok row => exists s, vp_current_status row = PyStr s
                     /\ decimal_value s = Some (VehiclePosition.current_status v)
       | Raise _ => in_datetime_range (VehiclePosition.timestamp v) = false
       end
    /\ (exists s, sa_cause (service_alert_tuple feed_log_id a) = PyStr s
          /\ decimal_value s = Some (Alert.cause a))
    /\ (exists s, sa_effect (service_alert_tuple feed_log_id a) = PyStr s
          /\ decimal_value s = Some (Alert.effect a))
    /\ py_str_int 0 = "0"%string
    /\ tu_schedule_relationship (trip_update_tuple feed_log_id TripUpdate.default)
       = PyStr "0".
Proof.
  intros feed_log_id tu v a. repeat split.
  - eexists. split; [reflexivity | apply py_str_int_decimal].
  - pose proof (vehicle_position_tuple_cases feed_log_id v) as C.
    destruct (vehicle_position_tuple feed_log_id v) as [row | e].
    + destruct C as [-> _]. eexists. split; [reflexivity | apply py_str_int_decimal].
    + tauto.
  - eexists. split; [reflexivity | apply py_str_int_decimal].
  - eexists. split; [reflexivity | apply py_str_int_decimal].
Qed.

Example enum_columns_of_defaults :
  (exists row, vehicle_position_tuple 7 VehiclePosition.default = Ok row
                /\ vp_current_status row = PyStr "2")
  /\ sa_cause (service_alert_tuple 7 Alert.default) = PyStr "1"
  /\ sa_effect (service_alert_tuple 7 Alert.default) = PyStr "8".
Proof. split; [eexists; split; reflexivity | split; reflexivity]. Qed.

(** ** The batches the loops build *)

Lemma stop_time_update_loop_ok (feed_log_id : Z) (trip_id : string)
    (stus : list StopTimeUpdate.t) :
  forall acc rows,
    stop_time_update_loop feed_log_id trip_id stus acc = Ok rows ->
    exists new, rows = acc ++ new
                /\ List.length new = List.length stus
                /\ Forall (refs_stu feed_log_id) new.
Proof.
  induction stus as [| stu rest IH]; intros acc rows H; cbn in H.
  - injection H as <-. exists []. rewrite app_nil_r. repeat split. constructor.
  - destruct (stop_time_update_tuple feed_log_id trip_id stu) as [row | e] eqn:E;
      [| discriminate].
    cbn in H. apply IH in H. destruct H as (new & -> & Hlen & Hall).
    exists (row :: new). rewrite <- app_assoc. cbn. repeat split.
    + now rewrite Hlen.
    + constructor; [| assumption].
      now apply stop_time_update_tuple_feed_log_id in E.
Qed.

Lemma trip_update_loop_ok (feed_log_id : Z) (entities : list FeedEntity.t) :
  forall acc_tu acc_stu tus stus,
    trip_update_loop feed_log_id entities acc_tu acc_stu = Ok (tus, stus) ->
    tus = acc_tu ++ map (fun e => trip_update_tuple feed_log_id (FeedEntity.trip_update e))
                        entities
    /\ exists new, stus = acc_stu ++ new
                   /\ List.length new = List.length (visited_stop_time_updates entities)
                   /\ Forall (refs_stu feed_log_id) new.
Proof.
  induction entities as [| e rest IH]; intros acc_tu acc_stu tus stus H; cbn in H.
  - injection H as <- <-. split; [now rewrite app_nil_r |].
    exists []. rewrite app_nil_r. repeat split. constructor.
  - change (truth (FeedEntity.trip_update e)) with true in H. cbn iota in H.
    destruct (stop_time_update_loop feed_log_id _ _ acc_stu) as [mid | err] eqn:E;
      [| discriminate].
    cbn in H. apply IH in H. destruct H as (-> & new & -> & Hlen & Hall).
    apply stop_time_update_loop_ok in E. destruct E as (new0 & -> & Hlen0 & Hall0).
    split; [now rewrite <- app_assoc |].
    exists (new0 ++ new). rewrite <- app_assoc. repeat split.
    + cbn. rewrite !length_app. now rewrite Hlen, Hlen0.
    + apply Forall_app. now split.
Qed.

Lemma trip_update_tuples_refs (feed_log_id : Z) (entities : list FeedEntity.t) :
  Forall (refs_tu feed_log_id)
         (map (fun e => trip_update_tuple feed_log_id (FeedEntity.trip_update e)) entities).
Proof. apply Forall_forall. intros r Hin. apply in_map_iff in Hin. now destruct Hin as (e & <- & _). Qed.

Lemma vehicle_position_loop_ok (feed_log_id : Z) (entities : list FeedEntity.t) :
  forall acc rows,
    vehicle_position_loop feed_log_id entities acc = Ok rows ->
    exists new, rows = acc ++ new
                /\ List.length new = List.length entities
                /\ Forall (refs_vp feed_log_id) new.
Proof.
  induction entities as [| e rest IH]; intros acc rows H; cbn in H.
  - injection H as <-. exists []. rewrite app_nil_r. repeat split. constructor.
  - change (truth (FeedEntity.vehicle e)) with true in H. cbn iota in H.
    pose proof (vehicle_position_tuple_cases feed_log_id (FeedEntity.vehicle e)) as C.
    destruct (vehicle_position_tuple feed_log_id (FeedEntity.vehicle e)) as [row | err];
      [| discriminate].
    cbn in H. apply IH in H. destruct H as (new & -> & Hlen & Hall).
    exists (row :: new). rewrite <- app_assoc. cbn. repeat split.
    + now rewrite Hlen.
    + constructor; [| assumption]. destruct C as [-> _]. reflexivity.
Qed.

Lemma service_alert_tuples_refs (feed_log_id : Z) (entities : list FeedEntity.t) :
  Forall (refs_sa feed_log_id) (service_alert_loop feed_log_id entities []).
Proof.
  rewrite service_alert_loop_app. cbn. apply Forall_forall. intros r Hin.
  apply in_map_iff in Hin. now destruct Hin as (e & <- & _).
Qed.

(** ** Reasoning about runs

    A relation between the world before a computation, how it ended and the
    world after; [obeys R m] says every run of [m] is in [R].  A relation
    that holds of the empty run and is closed under sequencing passes through
    [ret], [lift] and [bind]. *)

Section Runs.

Context {R : run_relation} `{Sequential R}.

Lemma obeys_ret {A : Type} (a : A) : obeys R (ret a).
Proof. intros w. apply seq_stay. Qed.

Lemma obeys_lift {A : Type} (r : result A) : obeys R (lift r).
Proof. intros w. apply seq_stay. Qed.

Lemma obeys_bind {A B : Type} (m : M A) (k : A -> M B) :
  obeys R m -> (forall a, obeys R (k a)) -> obeys R (bind m k).
Proof.
  intros Hm Hk w. specialize (Hm w). unfold bind.
  destruct (m w) as [[a | e] w1]; cbn in *.
  - eapply seq_then; [exact Hm | apply Hk].
  - exact Hm.
Qed.

Lemma obeys_if {A : Type} (b : bool) (m1 m2 : M A) :
  obeys R m1 -> obeys R m2 -> obeys R (if b then m1 else m2).
Proof. now destruct b. Qed.

End Runs.

(** ** Tables only grow, and a failed call ends the run *)

Lemma db_append_empty_r (d : database) : db_append d empty_database = d.
Proof. destruct d. unfold db_append. cbn. now rewrite !app_nil_r. Qed.

Lemma db_append_empty_l (d : database) : db_append empty_database d = d.
Proof. now destruct d. Qed.

Lemma db_append_assoc (a b c : database) :
  db_append (db_append a b) c = db_append a (db_append b c).
Proof. unfold db_append. cbn. now rewrite <- !app_assoc. Qed.

Lemma fault_shape_app (s : option exn) (l1 l2 : list (db_call * outcome)) :
  no_fault l1 -> fault_shape s l2 -> fault_shape s (l1 ++ l2).
Proof.
  intros H1 H2. destruct s as [e |]; cbn in *.
  - destruct H2 as [H2 | (-> & pre & c & -> & Hpre)].
    + left. now apply Forall_app.
    + right. split; [reflexivity |]. exists (l1 ++ pre), c.
      split; [now rewrite app_assoc | now apply Forall_app].
  - now apply Forall_app.
Qed.

#[global] Instance aborts_on_fault_sequential : Sequential aborts_on_fault.
Proof.
  split.
  - intros w s. exists [], empty_database.
    rewrite app_nil_r, db_append_empty_r. repeat split.
    destruct s; cbn; [left |]; constructor.
  - intros w w1 w2 s (l1 & d1 & J1 & S1 & T1) (l2 & d2 & J2 & S2 & T2).
    exists (l1 ++ l2), (db_append d1 d2). repeat split.
    + now rewrite J2, J1, app_assoc.
    + now apply fault_shape_app.
    + now rewrite T2, T1, db_append_assoc.
Qed.

(** A raised call anywhere in a run of that shape is its last call, and the
    run ended with the driver's exception. *)
Lemma fault_shape_last (s : option exn) (l pre post : list (db_call * outcome))
    (c : db_call) :
  fault_shape s l -> l = pre ++ (c, Raised) :: post ->
  post = [] /\ s = Some db_error.
Proof.
  intros Hs ->.
  assert (Hno : ~ no_fault (pre ++ (c, Raised) :: post)).
  { intros Hn. apply Forall_app in Hn. destruct Hn as [_ Hn].
    inversion Hn as [| x l' Hx _]. now apply Hx. }
  destruct s as [e |]; cbn in Hs; [| contradiction].
  destruct Hs as [Hs | (-> & pre' & c' & Heq & Hpre)]; [contradiction |].
  split; [| reflexivity].
  destruct post as [| p post0]; [reflexivity | exfalso].
  destruct (@exists_last _ (p :: post0)) as (post' & x & E); [discriminate |].
  rewrite E in Heq.
  change (pre ++ (c, Raised) :: post' ++ [x])
    with (pre ++ ((c, Raised) :: post') ++ [x]) in Heq.
  rewrite app_assoc in Heq. apply app_inj_tail in Heq. destruct Heq as [<- _].
  apply Forall_app in Hpre. destruct Hpre as [_ Hp].
    inversion Hp as [| y l' Hy _]. now apply Hy.
Qed.

Create HintDb aborts.

Section AbortsOnFault.

Variable env : environment.

Lemma fault_shape_one_ok (s : option exn) (c : db_call) (o : outcome) :
  o <> Raised -> fault_shape s [(c, o)].
Proof.
  intros Ho. destruct s; cbn; [left |]; (constructor; [exact Ho | constructor]).
Qed.

Lemma fault_shape_one_raised (c : db_call) :
  fault_shape (Some db_error) [(c, Raised)].
Proof.
  right. split; [reflexivity |]. exists [], c. split; [reflexivity | constructor].
Qed.

Lemma execute_values_aborts (s : statement) : obeys aborts_on_fault (execute_values env s).
Proof.
  intros w. unfold execute_values, record.
  destruct (db_fault env (List.length (journal w))); cbn.
  - exists [(Execute s, Raised)], empty_database.
    rewrite db_append_empty_r. repeat split. apply fault_shape_one_raised.
  - exists [(Execute s, Done)], empty_database.
    rewrite db_append_empty_r. repeat split. now apply (fault_shape_one_ok None).
Qed.

Lemma execute_returning_aborts (p : feed_log_params) :
  obeys aborts_on_fault (execute_returning env p).
Proof.
  intros w. unfold execute_returning, record.
  destruct (db_fault env (List.length (journal w))); cbn.
  - exists [(Execute (InsertFeedLog p), Raised)], empty_database.
    rewrite db_append_empty_r. repeat split. apply fault_shape_one_raised.
  - eexists [(Execute (InsertFeedLog p), Returned _)], empty_database.
    rewrite db_append_empty_r. repeat split. now apply (fault_shape_one_ok None).
Qed.

Lemma commit_aborts : obeys aborts_on_fault (commit env).
Proof.
  intros w. unfold commit, record.
  destruct (db_fault env (List.length (journal w))); cbn.
  - exists [(Commit, Raised)], empty_database.
    rewrite db_append_empty_r. repeat split. apply fault_shape_one_raised.
  - exists [(Commit, Done)], (pending w).
    repeat split. now apply (fault_shape_one_ok None).
Qed.

Lemma logging_info_aborts (msg : string) : obeys aborts_on_fault (logging_info msg).
Proof. intros w. cbn. apply (seq_stay (R := aborts_on_fault) w None). Qed.

Lemma logging_error_aborts (msg : string) : obeys aborts_on_fault (logging_error msg).
Proof. intros w. cbn. apply (seq_stay (R := aborts_on_fault) w None). Qed.

#[local] Hint Resolve execute_values_aborts execute_returning_aborts commit_aborts
     logging_info_aborts logging_error_aborts : aborts.
#[local] Hint Extern 1 (obeys _ (bind _ _)) => apply obeys_bind; [| intros ?] : aborts.
#[local] Hint Extern 1 (obeys _ (ret _)) => apply obeys_ret : aborts.
#[local] Hint Extern 1 (obeys _ (lift _)) => apply obeys_lift : aborts.
#[local] Hint Extern 1 (obeys _ (if _ then _ else _)) => apply obeys_if : aborts.

Lemma fetch_gtfs_rt_feed_aborts (feed_url : string) :
  obeys aborts_on_fault (fetch_gtfs_rt_feed env feed_url).
Proof. unfold fetch_gtfs_rt_feed. destruct (fetch_and_parse env feed_url); auto with aborts. Qed.

Lemma log_feed_fetch_aborts (feed_name feed_url : string) (ts : pyval) (ok : bool)
    (msg : pyval) :
  obeys aborts_on_fault (log_feed_fetch env feed_name feed_url ts ok msg).
Proof. unfold log_feed_fetch. auto with aborts. Qed.

Lemma process_trip_updates_aborts (feed_log_id : Z) (m : FeedMessage.t) :
  obeys aborts_on_fault (process_trip_updates env feed_log_id m).
Proof. unfold process_trip_updates. auto 10 with aborts. Qed.

Lemma process_vehicle_positions_aborts (feed_log_id : Z) (m : FeedMessage.t) :
  obeys aborts_on_fault (process_vehicle_positions env feed_log_id m).
Proof. unfold process_vehicle_positions. auto 10 with aborts. Qed.

Lemma process_service_alerts_aborts (feed_log_id : Z) (m : FeedMessage.t) :
  obeys aborts_on_fault (process_service_alerts env feed_log_id m).
Proof. unfold process_service_alerts. auto 10 with aborts. Qed.

#[local] Hint Resolve fetch_gtfs_rt_feed_aborts log_feed_fetch_aborts process_trip_updates_aborts
     process_vehicle_positions_aborts process_service_alerts_aborts : aborts.

Lemma poll_feed_aborts (feed_name feed_url : string) :
  obeys aborts_on_fault (poll_feed env feed_name feed_url).
Proof.
  unfold poll_feed. apply obeys_bind; [auto with aborts | intros _].
  apply obeys_bind; [auto with aborts | intros [m |]]; auto 12 with aborts.
Qed.

Lemma poll_feeds_aborts (feeds : list (string * string)) :
  obeys aborts_on_fault (poll_feeds env feeds).
Proof.
  induction feeds as [| [feed_name feed_url] rest IH]; cbn [poll_feeds].
  - apply obeys_ret.
  - apply obeys_bind; [apply poll_feed_aborts | intros _; exact IH].
Qed.

End AbortsOnFault.

(** ** Committed batches persist *)

Lemma whole_transactions_app (l1 l2 : list (db_call * outcome)) :
  whole_transactions l1 -> whole_transactions l2 -> whole_transactions (l1 ++ l2).
Proof.
  revert l1. fix IH 1. intros l1 H1 H2.
  destruct l1 as [| [[s |] o] [| [[s' |] o'] rest]]; cbn in H1 |- *; try contradiction.
  - exact H2.
  - destruct o'; try contradiction. destruct H1 as [Ho Hrest].
    split; [exact Ho | now apply IH].
Qed.

Lemma transaction_rows_app (env : environment) (l1 l2 : list (db_call * outcome)) :
  forall n,
    whole_transactions l1 ->
    transaction_rows env n (l1 ++ l2)
    = db_append (transaction_rows env n l1)
                (transaction_rows env (n + List.length l1) l2).
Proof.
  revert l1. fix IH 1. intros l1 n H1.
  destruct l1 as [| [[s |] o] [| [[s' |] o'] rest]]; cbn in H1; try contradiction.
  - cbn. rewrite db_append_empty_l. f_equal. lia.
  - destruct o'; try contradiction. destruct H1 as [_ Hrest].
    cbn [app transaction_rows List.length]. rewrite (IH rest (S (S n)) Hrest).
    rewrite db_append_assoc. do 3 f_equal. lia.
Qed.

Lemma whole_transactions_no_fault (l : list (db_call * outcome)) :
  whole_transactions l -> no_fault l.
Proof.
  revert l. fix IH 1. intros l H.
  destruct l as [| [[s |] o] [| [[s' |] o'] rest]]; cbn in H; try contradiction.
  - constructor.
  - destruct o'; try contradiction. destruct H as [Ho Hrest].
    constructor; [exact Ho |]. constructor; [discriminate |]. now apply IH.
Qed.

#[global] Instance commits_persist_sequential (env : environment) :
  Sequential (commits_persist env).
Proof.
  split.
  - intros w s Hp. exists [], []. cbn. rewrite app_nil_r, db_append_empty_r.
    repeat split. destruct s; auto.
  - intros w w1 w2 s H1 H2 Hp.
    destruct (H1 Hp) as (d1 & l1 & J1 & W1 & [-> P1] & T1).
    destruct (H2 P1) as (d2 & l2 & J2 & W2 & L2 & T2).
    exists (d1 ++ d2), l2. split; [| split; [| split]].
    + rewrite J2, J1, app_nil_r, <- !app_assoc. reflexivity.
    + now apply whole_transactions_app.
    + exact L2.
    + rewrite T2, T1, db_append_assoc. f_equal.
      rewrite (@transaction_rows_app env d1 d2 _ W1). f_equal. f_equal.
      rewrite J1, app_nil_r, length_app. reflexivity.
Qed.

Section CommitsPersist.

Variable env : environment.

Lemma write_batch_persists (s : statement) (msg : string) :
  obeys (commits_persist env)
        (bind (execute_values env s) (fun _ => bind (commit env) (fun _ => logging_info msg))).
Proof.
  intros w Hp. unfold bind, execute_values, commit, record.
  destruct (db_fault env (List.length (journal w))) eqn:F1; cbn.
  - exists [], [(Execute s, Raised)]. cbn. rewrite db_append_empty_r.
    repeat split. right. split; [| reflexivity]. left. now exists s.
  - rewrite length_app. cbn [List.length].
    destruct (db_fault env (List.length (journal w) + 1)); cbn; rewrite <- app_assoc.
    + exists [], [(Execute s, Done); (Commit, Raised)]. cbn. rewrite db_append_empty_r.
      repeat split. right. split; [| reflexivity].
      right. exists s, Done. split; [discriminate | reflexivity].
    + exists [(Execute s, Done); (Commit, Done)], []. cbn.
      rewrite Hp, db_append_empty_l, db_append_empty_r.
      repeat split; try discriminate. destruct s; reflexivity.
Qed.

Lemma log_feed_fetch_persists (feed_name feed_url : string) (ts : pyval) (ok : bool)
    (msg : pyval) :
  obeys (commits_persist env) (log_feed_fetch env feed_name feed_url ts ok msg).
Proof.
  intros w Hp. unfold log_feed_fetch, bind, execute_returning, commit, record.
  destruct (db_fault env (List.length (journal w))) eqn:F1; cbn.
  - eexists [], [(Execute _, Raised)]. cbn. rewrite db_append_empty_r.
    repeat split. right. split; [| reflexivity]. left. eauto.
  - rewrite length_app. cbn [List.length].
    destruct (db_fault env (List.length (journal w) + 1)); cbn; rewrite <- app_assoc.
    + eexists [], [(Execute _, Returned _); (Commit, Raised)]. cbn.
      rewrite db_append_empty_r. repeat split. right. split; [| reflexivity].
      right. eexists _, _. split; [| reflexivity]. discriminate.
    + eexists [(Execute _, Returned _); (Commit, Done)], []. cbn.
      rewrite Hp, db_append_empty_l, db_append_empty_r.
      repeat split; discriminate.
Qed.

Lemma logging_info_persists (msg : string) : obeys (commits_persist env) (logging_info msg).
Proof. intros w. cbn. apply (seq_stay (R := commits_persist env) w None). Qed.

Lemma fetch_gtfs_rt_feed_persists (feed_url : string) :
  obeys (commits_persist env) (fetch_gtfs_rt_feed env feed_url).
Proof.
  unfold fetch_gtfs_rt_feed. destruct (fetch_and_parse env feed_url).
  - apply obeys_ret.
  - intros w. cbn. apply (seq_stay (R := commits_persist env) w None).
Qed.

Lemma poll_feed_persists (feed_name feed_url : string) :
  obeys (commits_persist env) (poll_feed env feed_name feed_url).
Proof.
  unfold poll_feed, process_trip_updates, process_vehicle_positions, process_service_alerts.
  apply obeys_bind; [apply logging_info_persists | intros _].
  apply obeys_bind; [apply fetch_gtfs_rt_feed_persists | intros [m |]].
  - apply obeys_bind; [apply obeys_lift | intros ts].
    apply obeys_bind; [apply log_feed_fetch_persists | intros id].
    repeat first
      [ apply obeys_ret | apply obeys_lift | apply write_batch_persists
      | apply obeys_if | apply obeys_bind; [| intros ?] ].
  - apply obeys_bind; [apply log_feed_fetch_persists | intros _; apply obeys_ret].
Qed.

Lemma poll_feeds_persists (feeds : list (string * string)) :
  obeys (commits_persist env) (poll_feeds env feeds).
Proof.
  induction feeds as [| [feed_name feed_url] rest IH]; cbn [poll_feeds].
  - apply obeys_ret.
  - apply obeys_bind; [apply poll_feed_persists | intros _; exact IH].
Qed.

End CommitsPersist.

Lemma raised_call_is_last (done last pre post : list (db_call * outcome)) (c : db_call) :
  whole_transactions done ->
  last = [] \/ broken_transaction last ->
  done ++ last = pre ++ (c, Raised) :: post ->
  post = [] /\ broken_transaction last.
Proof.
  intros W L E.
  assert (S : fault_shape (Some db_error) (done ++ last)).
  { apply fault_shape_app; [now apply whole_transactions_no_fault |].
    destruct L as [-> | [(s & ->) | (s & o & Ho & ->)]].
    - left. constructor.
    - right. split; [reflexivity |]. exists [], (Execute s). split; [reflexivity | constructor].
    - right. split; [reflexivity |]. exists [(Execute s, o)], Commit.
      split; [reflexivity |]. constructor; [exact Ho | constructor]. }
  destruct (@fault_shape_last _ _ _ _ _ S E) as [Hpost _]. split; [exact Hpost |].
  destruct L as [-> | L]; [| exact L].
  exfalso. rewrite app_nil_r in E.
  apply whole_transactions_no_fault in W. rewrite E in W.
  apply Forall_app in W. destruct W as [_ W]. inversion W as [| x l Hx _]. now apply Hx.
Qed.

(** ** A failed batch write *)

(** C6, amended.  A failed batch write is not handled per batch: it ends the
    cycle.  The calls of a cycle are whole transactions, one statement and its
    commit each, followed by at most one transaction cut short by the call
    that raised; that call is the last call of the cycle, so no batch of
    another kind and no later feed is attempted after it, and it is logged by
    the handler of the cycle.  The tables end as they started plus the rows
    of every whole transaction, in commit order: what was committed before
    the failure stays committed. *)
Theorem C6_failed_write_ends_the_cycle :
  forall (env : environment) (feeds : list (string * string)) (w : world),
    let w' := poll_cycle env feeds w in
    exists done last,
      journal w' = journal w ++ done ++ last
      /\ whole_transactions done
      /\ (last = [] \/ broken_transaction last)
      /\ tables w'
         = db_append (tables w) (transaction_rows env (List.length (journal w)) done)
      /\ forall pre c post,
           done ++ last = pre ++ (c, Raised) :: post ->
           post = []
           /\ In (LogError "Unexpected error: database call failed") (log w').
Proof.
  intros env feeds w w'. subst w'. unfold poll_cycle, get_db_connection.
  destruct (connect_fault env).
  - exists [], []. cbn. rewrite app_nil_r, db_append_empty_r.
    repeat split; auto; destruct pre; discriminate.
  - set (w1 := World (tables w) empty_database (journal w) (log w)).
    destruct (@poll_feeds_persists env feeds w1 eq_refl) as (done & last & J & W & L & T).
    destruct (poll_feeds env feeds w1) as [[u | e] w2]; cbn in J, L, T |- *.
    + destruct L as [-> _]. exists done, []. repeat split; auto;
        destruct (@raised_call_is_last done [] pre post c W (or_introl eq_refl) H)
          as [Hpost [(s & Hs) | (s & o & _ & Hs)]]; try assumption; discriminate.
    + exists done, last.
      assert (L' : last = [] \/ broken_transaction last) by (destruct L as [-> | [L _]]; auto).
      repeat split; auto;
        destruct (@raised_call_is_last done last pre post c W L' H) as [Hpost Hb];
        [assumption |].
      destruct L as [-> | [_ ->]].
      * exfalso. destruct Hb as [(s & Hs) | (s & o & _ & Hs)]; discriminate.
      * apply in_or_app. left. apply in_or_app. right. left. reflexivity.
Qed.

(** A commit of the vehicle batch that raises: the audit row, the trip-update
    rows and the stop-time rows committed before it are in the tables, the
    vehicle rows and the alert rows are not. *)
Example partial_persistence :
  let w' := poll_cycle (env_serving message_trip_and_vehicle [7%nat])
                       [("F", "u")%string] world0 in
  (List.length (realtime_feed_logs (tables w')),
   List.length (realtime_trip_updates (tables w')),
   List.length (realtime_stop_time_updates (tables w')),
   List.length (realtime_vehicle_positions (tables w')),
   List.length (realtime_service_alerts (tables w')))
  = (1, 2, 2, 0, 0)%nat
  /\ nth_error (journal w') 7 = Some (Commit, Raised)
  /\ List.length (journal w') = 8%nat.
Proof. cbv zeta. repeat split. Qed.

(** C6 fails as stated: the trip-update batch of a feed raises, and the
    vehicle batch of the same feed, which has a vehicle entity, is never
    attempted. *)
Lemma C6_counterexample :
  let env := env_serving message_trip_and_vehicle [2%nat] in
  let w' := poll_cycle env [("F", "u")%string] world0 in
  (exists rows, nth_error (journal w') 2 = Some (Execute (InsertTripUpdates rows), Raised))
  /\ count_vehicle_entities message_trip_and_vehicle = 1%nat
  /\ (forall rows o, ~ In (Execute (InsertVehiclePositions rows), o) (journal w'))
  /\ realtime_vehicle_positions (tables w') = []
  /\ List.length (journal w') = 3%nat.
Proof.
  cbv zeta. split; [eexists; reflexivity |].
  split; [reflexivity |].
  split; [| split; reflexivity].
  intros rows o Hin.
  vm_compute in Hin.
  repeat (destruct Hin as [Hin | Hin]; [discriminate |]). exact Hin.
Qed.

(** ** Every entity row carries the id of its attempt *)

#[global] Instance within_attempt_sequential (id : Z) (w0 : world) :
  Sequential (within_attempt id w0).
Proof. split; unfold within_attempt; auto. Qed.

Lemma db_refs_empty (id : Z) : db_refs id empty_database.
Proof. repeat split; constructor. Qed.

Lemma db_refs_append (id : Z) (a b : database) :
  db_refs id a -> db_refs id b -> db_refs id (db_append a b).
Proof.
  intros (Fa & Ta & Sa & Va & Aa) (Fb & Tb & Sb & Vb & Ab).
  unfold db_refs, db_append. cbn. rewrite Fa, Fb.
  repeat split; try reflexivity; apply Forall_app; now split.
Qed.

Lemma db_refs_batch (id : Z) (s : statement) :
  entity_statement_refs id s -> db_refs id (batch_rows s).
Proof. destruct s; cbn; [contradiction | | | |]; intros H; repeat split; auto. Qed.

Lemma obeys_bind_lift {R : run_relation} `{Sequential R} {A B : Type}
    (r : result A) (k : A -> M B) :
  (forall a, r = Ok a -> obeys R (k a)) -> obeys R (bind (lift r) k).
Proof.
  intros Hk w. unfold bind, lift. destruct r as [a | e]; cbn.
  - now apply Hk.
  - apply seq_stay.
Qed.

Section WithinAttempt.

Variable env : environment.
Variable id : Z.
Variable w0 : world.

Lemma execute_values_within (s : statement) :
  entity_statement_refs id s -> obeys (within_attempt id w0) (execute_values env s).
Proof.
  intros Hs w (suffix & delta & J & C & T & D & P).
  unfold execute_values, record.
  destruct (db_fault env (List.length (journal w))); cbn.
  - exists (suffix ++ [(Execute s, Raised)]), delta. rewrite J, app_assoc.
    repeat split; try assumption; try apply D; try apply P.
    apply Forall_app. split; [assumption | now constructor].
  - exists (suffix ++ [(Execute s, Done)]), delta. rewrite J, app_assoc.
    split; [reflexivity |]. split; [| split; [assumption | split; [assumption |]]].
    + apply Forall_app. split; [assumption | now constructor].
    + apply db_refs_append; [assumption | now apply db_refs_batch].
Qed.

Lemma commit_within : obeys (within_attempt id w0) (commit env).
Proof.
  intros w (suffix & delta & J & C & T & D & P).
  unfold commit, record.
  destruct (db_fault env (List.length (journal w))); cbn.
  - exists (suffix ++ [(Commit, Raised)]), delta. rewrite J, app_assoc.
    repeat split; try assumption; try apply D; try apply P.
    apply Forall_app. split; [assumption | now constructor].
  - exists (suffix ++ [(Commit, Done)]), (db_append delta (pending w)).
    rewrite J, app_assoc, T, db_append_assoc.
    split; [reflexivity |]. split; [| split; [reflexivity | split]].
    + apply Forall_app. split; [assumption | now constructor].
    + now apply db_refs_append.
    + apply db_refs_empty.
Qed.

Lemma logging_info_within (msg : string) :
  obeys (within_attempt id w0) (logging_info msg).
Proof. intros w Hw. exact Hw. Qed.

Lemma write_batch_within (s : statement) (msg : string) :
  entity_statement_refs id s ->
  obeys (within_attempt id w0)
        (execute_values env s ;; commit env ;; logging_info msg).
Proof.
  intros Hs. apply obeys_bind; [now apply execute_values_within | intros _].
  apply obeys_bind; [apply commit_within | intros _]. apply logging_info_within.
Qed.

Lemma process_trip_updates_within (m : FeedMessage.t) :
  obeys (within_attempt id w0) (process_trip_updates env id m).
Proof.
  unfold process_trip_updates. apply obeys_bind_lift. intros [tus stus] Hloop. cbn [fst snd].
  apply trip_update_loop_ok in Hloop. destruct Hloop as (-> & new & -> & _ & Hall).
  cbn [app]. apply obeys_bind; [| intros _]; apply obeys_if;
    try apply obeys_ret; apply write_batch_within; cbn.
  - apply trip_update_tuples_refs.
  - exact Hall.
Qed.

Lemma process_vehicle_positions_within (m : FeedMessage.t) :
  obeys (within_attempt id w0) (process_vehicle_positions env id m).
Proof.
  unfold process_vehicle_positions. apply obeys_bind_lift. intros rows Hloop.
  apply vehicle_position_loop_ok in Hloop. destruct Hloop as (new & -> & _ & Hall).
  cbn [app]. apply obeys_if; [| apply obeys_ret].
  apply write_batch_within. exact Hall.
Qed.

Lemma process_service_alerts_within (m : FeedMessage.t) :
  obeys (within_attempt id w0) (process_service_alerts env id m).
Proof.
  unfold process_service_alerts. apply obeys_if; [| apply obeys_ret].
  apply write_batch_within. apply service_alert_tuples_refs.
Qed.

End WithinAttempt.

(** ** The audit insert *)

Lemma fetch_ok (env : environment) (feed_url : string) (m : FeedMessage.t) :
  fetch_and_parse env feed_url = Ok m ->
  fetch_gtfs_rt_feed env feed_url = ret (Some m).
Proof. unfold fetch_gtfs_rt_feed. now intros ->. Qed.

(** The three ways a fetch fails: the request itself, the status, the payload. *)
Lemma fetch_and_parse_failures (env : environment) (feed_url : string) :
  (forall e, requests_get env feed_url = Raise e -> fetch_and_parse env feed_url = Raise e)
  /\ (forall resp, requests_get env feed_url = Ok resp ->
        400 <= status_code resp < 600 ->
        fetch_and_parse env feed_url = Raise (HTTPError (status_code resp)))
  /\ (forall resp e, requests_get env feed_url = Ok resp ->
        raise_for_status resp = Ok tt ->
        ParseFromString env (content resp) = Raise e ->
        fetch_and_parse env feed_url = Raise e).
Proof.
  unfold fetch_and_parse. repeat split.
  - now intros e ->.
  - intros resp -> [Hlo Hhi]. cbn. unfold raise_for_status.
    apply Z.leb_le in Hlo. apply Z.ltb_lt in Hhi. now rewrite Hlo, Hhi.
  - intros resp e -> Hs Hp. cbn. rewrite Hs. cbn. now rewrite Hp.
Qed.

(** [log_feed_fetch] on a connection with no open transaction: either both
    calls succeed and exactly the audit row is committed, or one of them
    raises and the tables are untouched. *)
Lemma log_feed_fetch_cases (env : environment) (feed_name feed_url : string)
    (ts : pyval) (ok : bool) (msg : pyval) (w : world) :
  pending w = empty_database ->
  let n := List.length (journal w) in
  let p := audit_params feed_name feed_url ts ok msg in
  match log_feed_fetch env feed_name feed_url ts ok msg w with
  | (Ok id, w1) =>
      db_fault env n = false /\ db_fault env (S n) = false /\ id = serial env n
      /\ w1 = World (db_append (tables w) (Database [FeedLogRow id (now env n) p] [] [] [] []))
                    empty_database
                    (journal w ++ [(Execute (InsertFeedLog p), Returned id); (Commit, Done)])
                    (log w)
  | (Raise e, w1) =>
      e = db_error /\ tables w1 = tables w /\ log w1 = log w
      /\ (db_fault env n = true \/ db_fault env (S n) = true)
      /\ exists suffix, journal w1 = journal w ++ suffix /\ Forall audit_call suffix
  end.
Proof.
  intros Hp n p. unfold log_feed_fetch, bind, execute_returning, commit, record.
  fold p. fold n.
  destruct (db_fault env n) eqn:F1; cbn.
  - repeat split; auto. exists [(Execute (InsertFeedLog p), Raised)].
    split; [reflexivity |]. repeat constructor.
  - rewrite length_app. cbn [List.length]. fold n. replace (n + 1)%nat with (S n) by lia.
    destruct (db_fault env (S n)) eqn:F2; cbn.
    + repeat split; auto.
      eexists [(Execute (InsertFeedLog p), Returned _); (Commit, Raised)].
      rewrite <- app_assoc. split; [reflexivity |]. repeat constructor.
    + repeat split. rewrite Hp, db_append_empty_l, <- app_assoc. reflexivity.
Qed.

Lemma log_feed_fetch_run (env : environment) (feed_name feed_url : string)
    (ts : pyval) (ok : bool) (msg : pyval) (w : world) :
  pending w = empty_database ->
  let n := List.length (journal w) in
  let p := audit_params feed_name feed_url ts ok msg in
  let id := serial env n in
  log_feed_fetch env feed_name feed_url ts ok msg w
  = if db_fault env n then
      (Raise db_error,
       World (tables w) empty_database
             (journal w ++ [(Execute (InsertFeedLog p), Raised)]) (log w))
    else if db_fault env (S n) then
      (Raise db_error,
       World (tables w) (Database [FeedLogRow id (now env n) p] [] [] [] [])
             (journal w ++ [(Execute (InsertFeedLog p), Returned id); (Commit, Raised)])
             (log w))
    else
      (Ok id,
       World (db_append (tables w) (Database [FeedLogRow id (now env n) p] [] [] [] []))
             empty_database
             (journal w ++ [(Execute (InsertFeedLog p), Returned id); (Commit, Done)])
             (log w)).
Proof.
  intros Hp n p id. unfold log_feed_fetch, bind, execute_returning, commit, record.
  fold p. fold n. fold id. rewrite Hp.
  destruct (db_fault env n); cbn; [reflexivity |].
  rewrite length_app. cbn [List.length]. fold n. replace (n + 1)%nat with (S n) by lia.
  destruct (db_fault env (S n)); cbn; rewrite <- app_assoc; reflexivity.
Qed.

(** C7. In a poll whose fetch and decode succeeded, started with no open
    transaction: when the header timestamp converts and the database accepts
    the audit insert and its commit, the journal of the poll starts with the
    audit insert returning [id] and its commit, every later call is a commit
    or an entity batch all of whose rows carry [id], the committed tables
    gain the audit row with that [id], marked successful, and the entity
    rows they gain all carry [id].  Otherwise the poll raises and writes no
    entity row at all: nothing is called when the header timestamp does not
    convert, only the audit insert when it raises, only the audit insert and
    its commit when the commit raises, and the tables are left as they were. *)
Theorem C7_audit_row_precedes_entity_rows :
  forall (env : environment) (feed_name feed_url : string) (m : FeedMessage.t) (w : world),
    fetch_and_parse env feed_url = Ok m ->
    pending w = empty_database ->
    let n := List.length (journal w) in
    let id := serial env n in
    let run := poll_feed env feed_name feed_url w in
    match header_timestamp_cell m with
    | Raise e =>
        fst run = Raise e
        /\ journal (snd run) = journal w
        /\ tables (snd run) = tables w
    | Ok ts =>
        let p := FeedLogParams (PyStr feed_url) (PyStr feed_name) ts (PyBool true) PyNone in
        if db_fault env n then
          fst run = Raise db_error
          /\ journal (snd run) = journal w ++ [(Execute (InsertFeedLog p), Raised)]
          /\ tables (snd run) = tables w
        else if db_fault env (S n) then
          fst run = Raise db_error
          /\ journal (snd run)
             = journal w ++ [(Execute (InsertFeedLog p), Returned id); (Commit, Raised)]
          /\ tables (snd run) = tables w
        else
          exists rest delta,
            journal (snd run)
            = journal w
              ++ (Execute (InsertFeedLog p), Returned id) :: (Commit, Done) :: rest
            /\ Forall (call_refs id) rest
            /\ tables (snd run)
               = db_append
                   (db_append (tables w)
                              (Database [FeedLogRow id (now env n) p] [] [] [] []))
                   delta
            /\ db_refs id delta
    end.
Proof.
  intros env feed_name feed_url m w Hf Hp n id run. subst run.
  destruct (poll_feed env feed_name feed_url w) as [r wf] eqn:E. cbn [fst snd].
  unfold poll_feed in E. rewrite (@fetch_ok _ _ _ Hf) in E.
  unfold bind at 1 in E. cbn [logging_info] in E.
  unfold bind at 1 in E. cbn [ret] in E.
  unfold bind at 1 in E. unfold lift at 1 in E.
  fold (header_timestamp_cell m) in E.
  destruct (header_timestamp_cell m) as [ts | e].
  2:{ injection E as <- <-. cbn. auto. }
  unfold bind at 1 in E.
  match type of E with
  | context [log_feed_fetch _ _ _ _ _ _ ?w1] => set (wl := w1) in E
  end.
  rewrite (@log_feed_fetch_run env feed_name feed_url ts true PyNone wl Hp) in E.
  cbv zeta in E. cbn [wl journal tables log] in E. fold n in E. fold id in E.
  unfold audit_params in E.
  destruct (db_fault env n).
  { injection E as <- <-. cbn. auto. }
  destruct (db_fault env (S n)).
  { injection E as <- <-. cbn. auto. }
  match type of E with
  | ?rest ?w1 = _ => set (wa := w1) in E; assert (O : obeys (within_attempt id wa) rest)
  end.
  { apply obeys_bind; [| intros _; apply obeys_bind; [| intros _]];
      apply obeys_if; try apply obeys_ret.
    - apply process_trip_updates_within.
    - apply process_vehicle_positions_within.
    - apply process_service_alerts_within. }
  specialize (O wa). rewrite E in O. cbn [fst snd] in O.
  destruct O as (rest & delta & J & CR & T & D & _).
  { exists [], empty_database. rewrite app_nil_r, db_append_empty_r.
    split; [reflexivity |]. split; [constructor |]. split; [reflexivity |].
    split; apply db_refs_empty. }
  exists rest, delta.
  rewrite J, T. cbn [wa journal tables]. rewrite <- app_assoc. cbn [app].
  repeat split; try assumption; apply D.
Qed.

Lemma C7_witness :
  fetch_and_parse (env_serving message_trip_and_vehicle []) "u"
  = Ok message_trip_and_vehicle
  /\ pending world0 = empty_database
  /\ header_timestamp_cell message_trip_and_vehicle
     = Ok (PyDatetime (Datetime 2024 1 1 9 6 40))
  /\ db_fault (env_serving message_trip_and_vehicle []) 0 = false
  /\ db_fault (env_serving message_trip_and_vehicle []) 1 = false
  /\ match header_timestamp_cell message_trip_and_vehicle with
     | Raise e =>
         fst (poll_feed (env_serving message_trip_and_vehicle []) "F" "u" world0) = Raise e
         /\ journal (snd (poll_feed (env_serving message_trip_and_vehicle []) "F" "u" world0))
            = journal world0
         /\ tables (snd (poll_feed (env_serving message_trip_and_vehicle []) "F" "u" world0))
            = tables world0
     | Ok ts =>
         if db_fault (env_serving message_trip_and_vehicle []) (List.length (journal world0))
         then
           fst (poll_feed (env_serving message_trip_and_vehicle []) "F" "u" world0)
           = Raise db_error
           /\ journal (snd (poll_feed (env_serving message_trip_and_vehicle []) "F" "u" world0))
              = journal world0
                ++ [(Execute (InsertFeedLog
                                (FeedLogParams (PyStr "u") (PyStr "F") ts (PyBool true) PyNone)),
                     Raised)]
           /\ tables (snd (poll_feed (env_serving message_trip_and_vehicle []) "F" "u" world0))
              = tables world0
         else if db_fault (env_serving message_trip_and_vehicle [])
                          (S (List.length (journal world0)))
         then
           fst (poll_feed (env_serving message_trip_and_vehicle []) "F" "u" world0)
           = Raise db_error
           /\ journal (snd (poll_feed (env_serving message_trip_and_vehicle []) "F" "u" world0))
              = journal world0
                ++ [(Execute (InsertFeedLog
                                (FeedLogParams (PyStr "u") (PyStr "F") ts (PyBool true) PyNone)),
                     Returned (serial (env_serving message_trip_and_vehicle [])
                                      (List.length (journal world0))));
                    (Commit, Raised)]
           /\ tables (snd (poll_feed (env_serving message_trip_and_vehicle []) "F" "u" world0))
              = tables world0
         else
           exists rest delta,
             journal (snd (poll_feed (env_serving message_trip_and_vehicle []) "F" "u" world0))
             = journal world0
               ++ (Execute (InsertFeedLog
                              (FeedLogParams (PyStr "u") (PyStr "F") ts (PyBool true) PyNone)),
                   Returned (serial (env_serving message_trip_and_vehicle [])
                                    (List.length (journal world0))))
                  :: (Commit, Done) :: rest
             /\ Forall (call_refs (serial (env_serving message_trip_and_vehicle [])
                                          (List.length (journal world0)))) rest
             /\ tables (snd (poll_feed (env_serving message_trip_and_vehicle []) "F" "u" world0))
                = db_append
                    (db_append (tables world0)
                       (Database
                          [FeedLogRow (serial (env_serving message_trip_and_vehicle [])
                                              (List.length (journal world0)))
                                      (now (env_serving message_trip_and_vehicle [])
                                           (List.length (journal world0)))
                                      (FeedLogParams (PyStr "u") (PyStr "F") ts
                                                     (PyBool true) PyNone)]
                          [] [] [] []))
                    delta
             /\ db_refs (serial (env_serving message_trip_and_vehicle [])
                                (List.length (journal world0))) delta
     end.
Proof.
  split; [reflexivity |]. split; [reflexivity |]. split; [reflexivity |].
  split; [reflexivity |]. split; [reflexivity |].
  apply (@C7_audit_row_precedes_entity_rows
           (env_serving message_trip_and_vehicle []) "F" "u" message_trip_and_vehicle world0);
    reflexivity.
Defined.

(** ** A failed fetch or decode *)

Lemma poll_feed_fetch_error (env : environment) (feed_name feed_url : string) (e : exn)
    (w : world) :
  fetch_and_parse env feed_url = Raise e ->
  poll_feed env feed_name feed_url w
  = match log_feed_fetch env feed_name feed_url PyNone false FAILED_TO_FETCH
            (after_fetch_error feed_name feed_url e w) with
    | (Ok _, w1) => (Ok tt, w1)
    | (Raise x, w1) => (Raise x, w1)
    end.
Proof.
  intros Hf. unfold poll_feed, fetch_gtfs_rt_feed. rewrite Hf. reflexivity.
Qed.

(** C4. When the fetch or the decode of a feed fails (and the database takes
    the two calls of the audit insert), the poll commits exactly one audit
    row, with success false and a null header timestamp, leaves the four
    entity tables as they were, makes no other database call, and returns
    normally, so that the loop goes on with the next feed. *)
Theorem C4_failed_fetch_logged_and_skipped :
  forall (env : environment) (feed_name feed_url : string) (e : exn)
         (rest : list (string * string)) (w : world),
    fetch_and_parse env feed_url = Raise e ->
    pending w = empty_database ->
    db_fault env (List.length (journal w)) = false ->
    db_fault env (S (List.length (journal w))) = false ->
    exists id fetched_at w',
      poll_feed env feed_name feed_url w = (Ok tt, w')
      /\ realtime_feed_logs (tables w')
         = realtime_feed_logs (tables w)
           ++ [FeedLogRow id fetched_at
                 (FeedLogParams (PyStr feed_url) (PyStr feed_name) PyNone (PyBool false)
                                (PyStr "Failed to fetch or parse protobuf"))]
      /\ realtime_trip_updates (tables w') = realtime_trip_updates (tables w)
      /\ realtime_stop_time_updates (tables w') = realtime_stop_time_updates (tables w)
      /\ realtime_vehicle_positions (tables w') = realtime_vehicle_positions (tables w)
      /\ realtime_service_alerts (tables w') = realtime_service_alerts (tables w)
      /\ pending w' = empty_database
      /\ journal w'
         = journal w
           ++ [(Execute (InsertFeedLog
                           (FeedLogParams (PyStr feed_url) (PyStr feed_name) PyNone
                              (PyBool false) (PyStr "Failed to fetch or parse protobuf"))),
                Returned id);
               (Commit, Done)]
      /\ poll_feeds env ((feed_name, feed_url) :: rest) w = poll_feeds env rest w'.
Proof.
  intros env feed_name feed_url e rest w Hf Hp F1 F2.
  pose proof (@log_feed_fetch_cases env feed_name feed_url PyNone false FAILED_TO_FETCH
                (after_fetch_error feed_name feed_url e w) Hp) as C.
  cbv zeta in C. cbn [after_fetch_error journal] in C.
  cbn [poll_feeds]. unfold bind at 1.
  rewrite (@poll_feed_fetch_error env feed_name feed_url e w Hf).
  destruct (log_feed_fetch env feed_name feed_url PyNone false FAILED_TO_FETCH
              (after_fetch_error feed_name feed_url e w)) as [[id | x] w1].
  - destruct C as (_ & _ & Hid & ->).
    eexists id, _, _. split; [reflexivity |].
    cbn. rewrite !app_nil_r. repeat split.
  - exfalso. destruct C as (_ & _ & _ & [F | F] & _); congruence.
Qed.

Lemma C4_witness :
  fetch_and_parse env_timeout "u" = Raise (RequestException "Read timed out. (read timeout=30)")
  /\ exists id fetched_at w',
       poll_feed env_timeout "F" "u" world0 = (Ok tt, w')
       /\ realtime_feed_logs (tables w')
          = realtime_feed_logs (tables world0)
            ++ [FeedLogRow id fetched_at
                  (FeedLogParams (PyStr "u") (PyStr "F") PyNone (PyBool false)
                                 (PyStr "Failed to fetch or parse protobuf"))]
       /\ realtime_trip_updates (tables w') = realtime_trip_updates (tables world0)
       /\ realtime_stop_time_updates (tables w') = realtime_stop_time_updates (tables world0)
       /\ realtime_vehicle_positions (tables w') = realtime_vehicle_positions (tables world0)
       /\ realtime_service_alerts (tables w') = realtime_service_alerts (tables world0)
       /\ pending w' = empty_database
       /\ journal w'
          = journal world0
            ++ [(Execute (InsertFeedLog
                            (FeedLogParams (PyStr "u") (PyStr "F") PyNone
                               (PyBool false) (PyStr "Failed to fetch or parse protobuf"))),
                 Returned id);
                (Commit, Done)]
       /\ poll_feeds env_timeout (("F", "u") :: GTFS_RT_FEEDS) world0
          = poll_feeds env_timeout GTFS_RT_FEEDS w'.
Proof.
  split; [reflexivity |].
  apply (@C4_failed_fetch_logged_and_skipped env_timeout "F" "u"
           (RequestException "Read timed out. (read timeout=30)") GTFS_RT_FEEDS world0);
    reflexivity.
Defined.

(** ** Transport failures and decode failures *)

Lemma log_feed_fetch_ext (env1 env2 : environment) (feed_name feed_url : string)
    (ts : pyval) (ok : bool) (msg : pyval) (w1 w2 : world) :
  same_database env1 env2 ->
  same_database_side w1 w2 ->
  fst (log_feed_fetch env1 feed_name feed_url ts ok msg w1)
  = fst (log_feed_fetch env2 feed_name feed_url ts ok msg w2)
  /\ same_database_side (snd (log_feed_fetch env1 feed_name feed_url ts ok msg w1))
                        (snd (log_feed_fetch env2 feed_name feed_url ts ok msg w2)).
Proof.
  intros (Hf & Hs & Hn) (Ht & Hp & Hj).
  destruct w1 as [t1 p1 j1 l1], w2 as [t2 p2 j2 l2]. cbn in Ht, Hp, Hj. subst t2 p2 j2.
  unfold log_feed_fetch, bind, execute_returning, commit, record, same_database_side.
  cbn [journal tables pending log]. rewrite !Hf, Hs, Hn.
  destruct (db_fault env2 (List.length j1)); cbn; [auto |].
  rewrite !Hf.
  destruct (db_fault env2 _); cbn; auto.
Qed.

(** C9, amended.  A decode failure and a transport failure are handled alike
    down to the recorded error detail: against databases that behave alike,
    the two polls end the same way and leave the same tables and the same
    journal, and every audit insert they make carries the one fixed text
    [Failed to fetch or parse protobuf].  The cause shows only in the
    process log. *)
Theorem C9_same_audit_row_for_fetch_and_decode_failures :
  forall (env1 env2 : environment) (feed_name feed_url : string) (e1 e2 : exn) (w : world),
    fetch_and_parse env1 feed_url = Raise e1 ->
    fetch_and_parse env2 feed_url = Raise e2 ->
    same_database env1 env2 ->
    let run1 := poll_feed env1 feed_name feed_url w in
    let run2 := poll_feed env2 feed_name feed_url w in
    status (fst run1) = status (fst run2)
    /\ same_database_side (snd run1) (snd run2)
    /\ (exists suffix,
           journal (snd run1) = journal w ++ suffix
           /\ Forall (fun c => fst c = Commit
                               \/ fst c = Execute (InsertFeedLog
                                            (audit_params feed_name feed_url PyNone false
                                               (PyStr "Failed to fetch or parse protobuf"))))
                     suffix)
    /\ In (LogError ("Error fetching feed from " ++ feed_url ++ ": " ++ exn_str e1)%string)
          (log (snd run1))
    /\ In (LogError ("Error fetching feed from " ++ feed_url ++ ": " ++ exn_str e2)%string)
          (log (snd run2)).
Proof.
  intros env1 env2 feed_name feed_url e1 e2 w H1 H2 Hdb run1 run2. subst run1 run2.
  rewrite (@poll_feed_fetch_error env1 feed_name feed_url e1 w H1).
  rewrite (@poll_feed_fetch_error env2 feed_name feed_url e2 w H2).
  assert (Hside : same_database_side (after_fetch_error feed_name feed_url e1 w)
                                     (after_fetch_error feed_name feed_url e2 w))
    by (repeat split).
  pose proof (@log_feed_fetch_ext env1 env2 feed_name feed_url PyNone false FAILED_TO_FETCH
                _ _ Hdb Hside) as [Hr Hw].
  assert (Hlog : forall env e,
    In (LogError ("Error fetching feed from " ++ feed_url ++ ": " ++ exn_str e)%string)
       (log (snd (log_feed_fetch env feed_name feed_url PyNone false FAILED_TO_FETCH
                    (after_fetch_error feed_name feed_url e w))))).
  { intros env e. unfold log_feed_fetch, bind, execute_returning, commit, record.
    destruct (db_fault env _); cbn; [apply in_or_app; right; now left |].
    destruct (db_fault env _); cbn; apply in_or_app; right; now left. }
  assert (Hj : exists suffix,
    journal (snd (log_feed_fetch env1 feed_name feed_url PyNone false FAILED_TO_FETCH
                    (after_fetch_error feed_name feed_url e1 w))) = journal w ++ suffix
    /\ Forall (fun c => fst c = Commit
                        \/ fst c = Execute (InsertFeedLog
                                     (audit_params feed_name feed_url PyNone false
                                        (PyStr "Failed to fetch or parse protobuf"))))
              suffix).
  { unfold log_feed_fetch, bind, execute_returning, commit, record.
    destruct (db_fault env1 _); cbn.
    - eexists [_]. split; [reflexivity |]. constructor; [now right | constructor].
    - destruct (db_fault env1 _); cbn; rewrite <- app_assoc;
        (eexists [_; _]; split; [reflexivity |]);
        (constructor; [now right | constructor; [now left | constructor]]). }
  specialize (Hlog env1 e1) as L1. specialize (Hlog env2 e2) as L2.
  destruct (log_feed_fetch env1 feed_name feed_url PyNone false FAILED_TO_FETCH _)
    as [[id1 | x1] w1];
  destruct (log_feed_fetch env2 feed_name feed_url PyNone false FAILED_TO_FETCH _)
    as [[id2 | x2] w2]; cbn in *; try discriminate; repeat split; try apply Hw; auto.
  congruence.
Qed.

Lemma C9_witness :
  fetch_and_parse env_timeout "u" = Raise (RequestException "Read timed out. (read timeout=30)")
  /\ fetch_and_parse env_malformed "u" = Raise (DecodeError "Error parsing message")
  /\ same_database env_timeout env_malformed
  /\ status (fst (poll_feed env_timeout "F" "u" world0))
     = status (fst (poll_feed env_malformed "F" "u" world0))
  /\ same_database_side (snd (poll_feed env_timeout "F" "u" world0))
                        (snd (poll_feed env_malformed "F" "u" world0)).
Proof.
  assert (Hdb : same_database env_timeout env_malformed) by (repeat split).
  split; [reflexivity |]. split; [reflexivity |]. split; [exact Hdb |].
  pose proof (@C9_same_audit_row_for_fetch_and_decode_failures
                env_timeout env_malformed "F" "u"
                (RequestException "Read timed out. (read timeout=30)")
                (DecodeError "Error parsing message") world0
                eq_refl eq_refl Hdb) as H.
  cbv zeta in H. split; [apply H | apply H].
Defined.

(** C9 fails as stated: a timed-out request and a payload that does not
    decode leave audit rows with the very same error detail. *)
Lemma C9_counterexample :
  let w1 := snd (poll_feed env_timeout "F" "u" world0) in
  let w2 := snd (poll_feed env_malformed "F" "u" world0) in
  fetch_and_parse env_timeout "u" = Raise (RequestException "Read timed out. (read timeout=30)")
  /\ fetch_and_parse env_malformed "u" = Raise (DecodeError "Error parsing message")
  /\ map (fun r => flp_error_message (fl_params r)) (realtime_feed_logs (tables w1))
     = [PyStr "Failed to fetch or parse protobuf"]
  /\ map (fun r => flp_error_message (fl_params r)) (realtime_feed_logs (tables w2))
     = [PyStr "Failed to fetch or parse protobuf"]
  /\ tables w1 = tables w2.
Proof. cbv zeta. repeat split. Qed.

(** ** Open transactions *)

#[global] Instance closes_transaction_sequential : Sequential closes_transaction.
Proof. split; unfold closes_transaction; auto. Qed.

Section ClosesTransaction.

Variable env : environment.

Lemma write_batch_closes (s : statement) (msg : string) :
  obeys closes_transaction
        (bind (execute_values env s) (fun _ => bind (commit env) (fun _ => logging_info msg))).
Proof.
  intros w Hp. unfold bind, execute_values, commit, record.
  destruct (db_fault env _); cbn; [discriminate |].
  destruct (db_fault env _); cbn; [discriminate | reflexivity].
Qed.

Lemma log_feed_fetch_closes (feed_name feed_url : string) (ts : pyval) (ok : bool)
    (msg : pyval) :
  obeys closes_transaction (log_feed_fetch env feed_name feed_url ts ok msg).
Proof.
  intros w Hp. unfold log_feed_fetch, bind, execute_returning, commit, record.
  destruct (db_fault env _); cbn; [discriminate |].
  destruct (db_fault env _); cbn; [discriminate | reflexivity].
Qed.

Lemma logging_info_closes (msg : string) : obeys closes_transaction (logging_info msg).
Proof. intros w Hp _. exact Hp. Qed.

Lemma fetch_gtfs_rt_feed_closes (feed_url : string) :
  obeys closes_transaction (fetch_gtfs_rt_feed env feed_url).
Proof.
  unfold fetch_gtfs_rt_feed. destruct (fetch_and_parse env feed_url).
  - apply obeys_ret.
  - intros w Hp _. exact Hp.
Qed.

Lemma poll_feed_closes (feed_name feed_url : string) :
  obeys closes_transaction (poll_feed env feed_name feed_url).
Proof.
  unfold poll_feed, process_trip_updates, process_vehicle_positions, process_service_alerts.
  apply obeys_bind; [apply logging_info_closes | intros _].
  apply obeys_bind; [apply fetch_gtfs_rt_feed_closes | intros [m |]].
  - apply obeys_bind; [apply obeys_lift | intros ts].
    apply obeys_bind; [apply log_feed_fetch_closes | intros id].
    repeat first
      [ apply obeys_ret | apply obeys_lift | apply write_batch_closes
      | apply obeys_if | apply obeys_bind; [| intros ?] ].
  - apply obeys_bind; [apply log_feed_fetch_closes | intros _; apply obeys_ret].
Qed.


End ClosesTransaction.

(** Every poll of the loop starts with no open transaction: the connection is
    new at the first feed, and a poll that returns leaves none open. *)
Lemma poll_feed_ok_pending (env : environment) (feed_name feed_url : string)
    (w w' : world) :
  pending w = empty_database ->
  poll_feed env feed_name feed_url w = (Ok tt, w') ->
  pending w' = empty_database.
Proof.
  intros Hp E. pose proof (@poll_feed_closes env feed_name feed_url w) as H.
  rewrite E in H. now apply H.
Qed.

(** ** A poll against a database that accepts every call *)

Lemma guarded_write_no_fault (env : environment) (b : bool) (s : statement) (msg : string)
    (w : world) :
  no_db_fault env ->
  pending w = empty_database ->
  (b = false -> batch_rows s = empty_database) ->
  exists w',
    (if b then bind (execute_values env s) (fun _ => bind (commit env) (fun _ => logging_info msg))
     else ret tt) w = (Ok tt, w')
    /\ tables w' = db_append (tables w) (batch_rows s)
    /\ pending w' = empty_database.
Proof.
  intros Hf Hp Hb. destruct b.
  - unfold bind, execute_values, commit, record. rewrite Hf. cbn. rewrite Hf. cbn.
    eexists. split; [reflexivity |]. cbn. rewrite Hp, db_append_empty_l. auto.
  - exists w. rewrite (Hb eq_refl), db_append_empty_r. auto.
Qed.

Lemma truth_list_false A (l : list A) : truth l = false -> l = [].
Proof. destruct l; [reflexivity | discriminate]. Qed.

Lemma process_trip_updates_no_fault env id m w tus stus :
  no_db_fault env -> pending w = empty_database ->
  trip_update_loop id (FeedMessage.entity m) [] [] = Ok (tus, stus) ->
  exists w', process_trip_updates env id m w = (Ok tt, w')
    /\ tables w' = db_append (tables w) (Database [] tus stus [] [])
    /\ pending w' = empty_database.
Proof.
  intros Hf Hp Hl. unfold process_trip_updates. rewrite Hl.
  unfold bind at 1. unfold lift. cbn [fst snd].
  unfold bind at 1.
  destruct (@guarded_write_no_fault env (truth tus) (InsertTripUpdates tus)
              ("Inserted " ++ py_len tus ++ " trip_updates.") w Hf Hp) as (w1 & E1 & T1 & P1).
  { intros H. apply truth_list_false in H. now subst. }
  rewrite E1.
  destruct (@guarded_write_no_fault env (truth stus) (InsertStopTimeUpdates stus)
              ("Inserted " ++ py_len stus ++ " stop_time_updates.") w1 Hf P1) as (w2 & E2 & T2 & P2).
  { intros H. apply truth_list_false in H. now subst. }
  rewrite E2. exists w2. split; [reflexivity |]. split; [| assumption].
  rewrite T2, T1, db_append_assoc. cbn. unfold db_append; cbn. now rewrite !app_nil_r.
Qed.

Lemma process_vehicle_positions_no_fault env id m w vps :
  no_db_fault env -> pending w = empty_database ->
  vehicle_position_loop id (FeedMessage.entity m) [] = Ok vps ->
  exists w', process_vehicle_positions env id m w = (Ok tt, w')
    /\ tables w' = db_append (tables w) (Database [] [] [] vps [])
    /\ pending w' = empty_database.
Proof.
  intros Hf Hp Hl. unfold process_vehicle_positions. rewrite Hl.
  unfold bind at 1. unfold lift.
  apply guarded_write_no_fault; try assumption.
  intros H. apply truth_list_false in H. now subst.
Qed.

Lemma process_service_alerts_no_fault env id m w :
  no_db_fault env -> pending w = empty_database ->
  exists w', process_service_alerts env id m w = (Ok tt, w')
    /\ tables w' = db_append (tables w)
                     (Database [] [] [] [] (service_alert_loop id (FeedMessage.entity m) []))
    /\ pending w' = empty_database.
Proof.
  intros Hf Hp. unfold process_service_alerts.
  apply (@guarded_write_no_fault env _ (InsertServiceAlerts _)); try assumption.
  intros H. apply truth_list_false in H. now rewrite H.
Qed.

Lemma poll_feed_no_fault env feed_name feed_url m w ts tus stus vps :
  let id := serial env (List.length (journal w)) in
  fetch_and_parse env feed_url = Ok m ->
  pending w = empty_database ->
  no_db_fault env ->
  (if truth (FeedHeader.timestamp (FeedMessage.header m))
   then _ts_to_datetime (FeedHeader.timestamp (FeedMessage.header m)) else Ok PyNone) = Ok ts ->
  trip_update_loop id (FeedMessage.entity m) [] [] = Ok (tus, stus) ->
  vehicle_position_loop id (FeedMessage.entity m) [] = Ok vps ->
  exists w',
    poll_feed env feed_name feed_url w = (Ok tt, w')
    /\ tables w'
       = db_append (tables w)
           (Database [FeedLogRow id (now env (List.length (journal w)))
                        (audit_params feed_name feed_url ts true PyNone)]
                     tus stus vps (service_alert_loop id (FeedMessage.entity m) []))
    /\ pending w' = empty_database.
Proof.
  intros id Hfetch Hp Hf Hts Htu Hvp.
  unfold poll_feed. rewrite (@fetch_ok _ _ _ Hfetch).
  unfold bind at 1. cbn [logging_info].
  unfold bind at 1. cbn [ret].
  unfold bind at 1. unfold lift at 1. rewrite Hts.
  unfold bind at 1.
  match goal with
  | |- context [log_feed_fetch _ _ _ _ _ _ ?w1] => set (wl := w1)
  end.
  pose proof (@log_feed_fetch_cases env feed_name feed_url ts true PyNone wl Hp) as C.
  cbv zeta in C. cbn [wl journal tables log] in C.
  destruct (log_feed_fetch env feed_name feed_url ts true PyNone wl) as [[id' | e] w1].
  2:{ exfalso. destruct C as (_ & _ & _ & [F | F] & _); rewrite Hf in F; discriminate. }
  destruct C as (_ & _ & -> & Hw1). fold id in Hw1 |- *.
  assert (P1 : pending w1 = empty_database) by now rewrite Hw1.
  assert (T1 : tables w1 = db_append (tables w)
                 (Database [FeedLogRow id (now env (List.length (journal w)))
                              (audit_params feed_name feed_url ts true PyNone)] [] [] [] []))
    by now rewrite Hw1.
  clearbody wl. clear Hw1.
  destruct (FeedMessage.entity m) as [| e rest] eqn:Hent.
  - cbn in Htu, Hvp. injection Htu as <- <-. injection Hvp as <-.
    cbn. exists w1. repeat split; assumption.
  - cbn [existsb].
    change (truth (FeedEntity.trip_update e)) with true.
    change (truth (FeedEntity.vehicle e)) with true.
    change (truth (FeedEntity.alert e)) with true. cbn [orb].
    rewrite <- Hent in *.
    destruct (@process_trip_updates_no_fault env id m w1 tus stus Hf P1 Htu)
      as (w2 & E2 & T2 & P2).
    destruct (@process_vehicle_positions_no_fault env id m w2 vps Hf P2 Hvp)
      as (w3 & E3 & T3 & P3).
    destruct (@process_service_alerts_no_fault env id m w3 Hf P3) as (w4 & E4 & T4 & P4).
    unfold bind. rewrite E2, E3, E4. exists w4. split; [reflexivity |].
    split; [| assumption].
    rewrite T4, T3, T2, T1, !db_append_assoc. f_equal.
    unfold db_append. cbn. now rewrite !app_nil_r.
Qed.

(** With a database that accepts every call, a decoded message adds one audit
    row and, whatever payloads its entities carry, one trip-update row, one
    vehicle row and one alert row per entity, and one stop-time row per stop
    time update. *)
Lemma poll_feed_row_counts (env : environment) (feed_name feed_url : string)
    (m : FeedMessage.t) (w : world) (ts : pyval) (tus : list trip_update_row)
    (stus : list stop_time_update_row) (vps : list vehicle_position_row) :
  let id := serial env (List.length (journal w)) in
  fetch_and_parse env feed_url = Ok m ->
  pending w = empty_database ->
  no_db_fault env ->
  (if truth (FeedHeader.timestamp (FeedMessage.header m))
   then _ts_to_datetime (FeedHeader.timestamp (FeedMessage.header m)) else Ok PyNone) = Ok ts ->
  trip_update_loop id (FeedMessage.entity m) [] [] = Ok (tus, stus) ->
  vehicle_position_loop id (FeedMessage.entity m) [] = Ok vps ->
  exists w',
    poll_feed env feed_name feed_url w = (Ok tt, w')
    /\ List.length (realtime_feed_logs (tables w'))
       = S (List.length (realtime_feed_logs (tables w)))
    /\ List.length (realtime_trip_updates (tables w'))
       = (List.length (realtime_trip_updates (tables w))
          + List.length (FeedMessage.entity m))%nat
    /\ List.length (realtime_stop_time_updates (tables w'))
       = (List.length (realtime_stop_time_updates (tables w))
          + List.length (visited_stop_time_updates (FeedMessage.entity m)))%nat
    /\ List.length (realtime_vehicle_positions (tables w'))
       = (List.length (realtime_vehicle_positions (tables w))
          + List.length (FeedMessage.entity m))%nat
    /\ List.length (realtime_service_alerts (tables w'))
       = (List.length (realtime_service_alerts (tables w))
          + List.length (FeedMessage.entity m))%nat.
Proof.
  intros id Hfetch Hp Hf Hts Htu Hvp.
  destruct (@poll_feed_no_fault env feed_name feed_url m w ts tus stus vps
              Hfetch Hp Hf Hts Htu Hvp) as (w' & E & T & _).
  exists w'. split; [exact E |]. rewrite T. cbn.
  apply trip_update_loop_ok in Htu. destruct Htu as (-> & new & -> & Hlen & _).
  apply vehicle_position_loop_ok in Hvp. destruct Hvp as (newv & -> & Hlenv & _).
  rewrite service_alert_loop_app. cbn.
  rewrite !length_app, !length_map, Hlen, Hlenv. cbn. repeat split; lia.
Qed.

(** ** Entities that do not carry a payload *)

(** C1, at a message whose single entity carries a vehicle payload only: the
    poll succeeds and commits one successful audit row and one vehicle row,
    and it also commits a trip-update row and a service-alert row, although
    no entity carries a trip update or an alert. *)
Theorem C1_rows_per_kind_vehicle_only :
  fst run_vehicle_only = Ok tt
  /\ map (fun r => flp_success (fl_params r))
         (realtime_feed_logs (tables (snd run_vehicle_only))) = [PyBool true]
  /\ count_vehicle_entities message_vehicle_only = 1%nat
  /\ List.length (realtime_vehicle_positions (tables (snd run_vehicle_only))) = 1%nat
  /\ count_trip_update_entities message_vehicle_only = 0%nat
  /\ realtime_trip_updates (tables (snd run_vehicle_only))
     = [TripUpdateRow (PyInt 100) (PyStr "") (PyStr "") (PyStr "") (PyStr "0")]
  /\ count_alert_entities message_vehicle_only = 0%nat
  /\ realtime_service_alerts (tables (snd run_vehicle_only))
     = [ServiceAlertRow (PyInt 100) (PyStr "") (PyStr "") (PyStr "1") (PyStr "8")]
  /\ realtime_stop_time_updates (tables (snd run_vehicle_only)) = [].
Proof. repeat split. Qed.

(** C8, at the same message: it has no trip-update entity and no alert
    entity, yet an INSERT is issued against the trip-update table and another
    against the service-alert table; the stop-time batch, which is empty, is
    not written. *)
Theorem C8_insert_issued_for_absent_kind :
  count_trip_update_entities message_vehicle_only = 0%nat
  /\ count_alert_entities message_vehicle_only = 0%nat
  /\ map fst (journal (snd run_vehicle_only))
     = [ Execute (InsertFeedLog
                    (FeedLogParams (PyStr "u") (PyStr "F")
                       (PyDatetime (Datetime 2024 1 1 9 6 40)) (PyBool true) PyNone));
         Commit;
         Execute (InsertTripUpdates
                    [TripUpdateRow (PyInt 100) (PyStr "") (PyStr "") (PyStr "") (PyStr "0")]);
         Commit;
         Execute (InsertVehiclePositions
                    [VehiclePositionRow (PyInt 100) (PyStr "V1") (PyStr "T1") (PyStr "R1")
                       (PyStr "S1") (PyStr "1")
                       (PyFloat (F32 1109603942)) (PyFloat (F32 3264459244))
                       (PyFloat float_zero) (PyFloat float_zero)
                       (PyDatetime (Datetime 2024 1 1 9 6 40))]);
         Commit;
         Execute (InsertServiceAlerts
                    [ServiceAlertRow (PyInt 100) (PyStr "") (PyStr "") (PyStr "1") (PyStr "8")]);
         Commit ].
Proof. repeat split. Qed.

(** The guards on the batches themselves work: an empty batch is not written. *)
Lemma empty_batches_are_not_written (env : environment) (feed_log_id : Z)
    (header : FeedHeader.t) (w : world) :
  process_trip_updates env feed_log_id (FeedMessage.Make header []) w = (Ok tt, w)
  /\ process_vehicle_positions env feed_log_id (FeedMessage.Make header []) w = (Ok tt, w)
  /\ process_service_alerts env feed_log_id (FeedMessage.Make header []) w = (Ok tt, w).
Proof. repeat split. Qed.

(** Scenario A of the specification, through the whole poll: one trip update
    with two stop time updates.  The trip-update and stop-time rows are as
    expected; the vehicle and alert batches are written too. *)
Example scenario_A_stop_time_rows :
  realtime_stop_time_updates
    (tables (snd (poll_feed
                    (env_serving
                       (FeedMessage.Make (FeedHeader.Make None)
                          [FeedEntity.Make "e1" (Some trip_T1) None None]) [])
                    "F" "u" world0)))
  = [ StopTimeUpdateRow (PyInt 100) (PyStr "T1") (PyStr "S1") (PyInt 1)
        PyNone PyNone PyNone;
      StopTimeUpdateRow (PyInt 100) (PyStr "T1") (PyStr "S2") (PyInt 2)
        (PyDatetime (Datetime 2024 1 1 9 6 40)) PyNone (PyInt 30) ].
Proof. reflexivity. Qed.

(** * Further properties of the collector *)

(** X1. A fetch yields a message exactly when the request returned, its
    status is not a 4xx or a 5xx, and the payload decodes; a 1xx, 2xx or 3xx
    answer is parsed like a 200. *)
Theorem X1_fetch_succeeds_iff :
  forall (env : environment) (feed_url : string) (m : FeedMessage.t),
    fetch_and_parse env feed_url = Ok m
    <-> exists resp,
          requests_get env feed_url = Ok resp
          /\ (status_code resp < 400 \/ 600 <= status_code resp)
          /\ ParseFromString env (content resp) = Ok m.
Proof.
  intros env feed_url m. unfold fetch_and_parse, raise_for_status. split.
  - destruct (requests_get env feed_url) as [resp | e]; cbn; [| discriminate].
    destruct (400 <=? status_code resp) eqn:Hlo; cbn.
    + destruct (status_code resp <? 600) eqn:Hhi; cbn; [discriminate |].
      destruct (ParseFromString env (content resp)) as [m' | e] eqn:Hp; cbn; [| discriminate].
      intros H. injection H as <-. exists resp. repeat split; auto.
      right. apply Z.ltb_ge in Hhi. lia.
    + destruct (ParseFromString env (content resp)) as [m' | e] eqn:Hp; cbn; [| discriminate].
      intros H. injection H as <-. exists resp. repeat split; auto.
      left. apply Z.leb_gt in Hlo. lia.
  - intros (resp & -> & Hs & Hp). cbn.
    assert (E : (400 <=? status_code resp) && (status_code resp <? 600) = false).
    { apply andb_false_iff. destruct Hs; [left; apply Z.leb_gt | right; apply Z.ltb_ge]; lia. }
    rewrite E. cbn. rewrite Hp. reflexivity.
Qed.

Lemma ts_to_datetime_raises (ts : Z) (e : exn) :
  _ts_to_datetime ts = Raise e -> e = YEAR_OUT_OF_RANGE.
Proof.
  unfold _ts_to_datetime, utcfromtimestamp.
  destruct (truth ts); [| discriminate].
  destruct (in_datetime_range ts).
  - destruct (civil_from_days (ts / 86400)) as [[y m] d]. discriminate.
  - cbn. intros H. now injection H as <-.
Qed.

Lemma guarded_ts_total (ts : Z) :
  in_datetime_range ts = true ->
  exists cell, (if truth ts then _ts_to_datetime ts else Ok PyNone) = Ok cell.
Proof.
  intros Hr. pose proof (ts_to_datetime_cases ts) as C.
  destruct (truth ts); [| eauto].
  destruct (_ts_to_datetime ts) as [cell | e]; [eauto |].
  destruct C as [_ C]. congruence.
Qed.

Lemma guarded_ts_out_of_range (ts : Z) :
  ts <> 0 -> in_datetime_range ts = false ->
  (if truth ts then _ts_to_datetime ts else Ok PyNone) = Raise YEAR_OUT_OF_RANGE.
Proof.
  intros Hnz Hr. unfold truth, truth_int.
  destruct (Z.eqb_spec ts 0) as [E | E]; [contradiction |]. cbn [negb].
  unfold _ts_to_datetime, truth, truth_int.
  destruct (Z.eqb_spec ts 0) as [E' | E']; [contradiction |]. cbn [negb].
  now rewrite (utcfromtimestamp_out_of_range ts Hr).
Qed.

Lemma in_range_nonzero (ts : Z) : in_datetime_range ts = false -> ts <> 0.
Proof. intros H ->. discriminate. Qed.

(** X2. A decoded message whose header timestamp lies outside the range of
    datetime makes the poll raise before any database call: no audit row is
    written for that feed, neither a success nor a failure, and the feeds
    after it are not polled. *)
Theorem X2_header_timestamp_out_of_range :
  forall (env : environment) (feed_name feed_url : string) (m : FeedMessage.t)
         (rest : list (string * string)) (w : world),
    fetch_and_parse env feed_url = Ok m ->
    in_datetime_range (FeedHeader.timestamp (FeedMessage.header m)) = false ->
    let w' := World (tables w) (pending w) (journal w)
                (log w ++ [LogInfo ("Fetching feed: " ++ feed_name ++ " from " ++ feed_url)%string]) in
    poll_feed env feed_name feed_url w = (Raise YEAR_OUT_OF_RANGE, w')
    /\ poll_feeds env ((feed_name, feed_url) :: rest) w = (Raise YEAR_OUT_OF_RANGE, w').
Proof.
  intros env feed_name feed_url m rest w Hf Hr w'.
  assert (E : poll_feed env feed_name feed_url w = (Raise YEAR_OUT_OF_RANGE, w')).
  { unfold poll_feed. rewrite (@fetch_ok _ _ _ Hf).
    unfold bind at 1. cbn [logging_info].
    unfold bind at 1. cbn [ret].
    unfold bind at 1. unfold lift at 1.
    rewrite (@guarded_ts_out_of_range _ (@in_range_nonzero _ Hr) Hr). reflexivity. }
  split; [exact E |]. cbn [poll_feeds]. unfold bind. now rewrite E.
Qed.

Lemma stop_time_update_loop_total (feed_log_id : Z) (trip_id : string)
    (stus : list StopTimeUpdate.t) :
  forallb stop_time_update_in_range stus = true ->
  forall acc, exists rows, stop_time_update_loop feed_log_id trip_id stus acc = Ok rows.
Proof.
  induction stus as [| stu rest IH]; intros Hall acc; cbn.
  - eauto.
  - cbn in Hall. apply andb_prop in Hall. destruct Hall as [Hstu Hrest].
    unfold stop_time_update_in_range in Hstu. apply andb_prop in Hstu.
    destruct Hstu as [Ha Hd].
    destruct (@stop_time_update_tuple_total feed_log_id trip_id stu
                (or_intror Ha) (or_intror Hd)) as [row ->].
    cbn. apply IH. exact Hrest.
Qed.

Lemma trip_update_loop_total (feed_log_id : Z) (entities : list FeedEntity.t) :
  forallb entity_stop_times_in_range entities = true ->
  forall acc_tu acc_stu,
    exists tus stus,
      trip_update_loop feed_log_id entities acc_tu acc_stu = Ok (tus, stus).
Proof.
  induction entities as [| e rest IH]; intros Hall acc_tu acc_stu; cbn.
  - eauto.
  - cbn in Hall. apply andb_prop in Hall. destruct Hall as [He Hrest].
    rename He into Hs. unfold entity_stop_times_in_range in Hs.
    change (truth (FeedEntity.trip_update e)) with true. cbn iota.
    destruct (@stop_time_update_loop_total feed_log_id
                (TripDescriptor.trip_id (TripUpdate.trip (FeedEntity.trip_update e)))
                _ Hs acc_stu) as [rows ->].
    cbn. apply IH. exact Hrest.
Qed.

Lemma vehicle_position_tuple_total (feed_log_id : Z) (v : VehiclePosition.t) :
  in_datetime_range (VehiclePosition.timestamp v) = true ->
  exists row, vehicle_position_tuple feed_log_id v = Ok row.
Proof.
  intros Hr. pose proof (vehicle_position_tuple_cases feed_log_id v) as C.
  destruct (vehicle_position_tuple feed_log_id v) as [row | e]; [eauto |].
  destruct C as [_ C]. congruence.
Qed.

Lemma vehicle_position_loop_total (feed_log_id : Z) (entities : list FeedEntity.t) :
  forallb entity_in_range entities = true ->
  forall acc, exists rows, vehicle_position_loop feed_log_id entities acc = Ok rows.
Proof.
  induction entities as [| e rest IH]; intros Hall acc; cbn.
  - eauto.
  - cbn in Hall. apply andb_prop in Hall. destruct Hall as [He Hrest].
    unfold entity_in_range in He. apply andb_prop in He. destruct He as [_ Hv].
    change (truth (FeedEntity.vehicle e)) with true. cbn iota.
    destruct (@vehicle_position_tuple_total feed_log_id _ Hv) as [row ->].
    cbn. apply IH. exact Hrest.
Qed.

Lemma vehicle_position_tuple_raises (feed_log_id : Z) (v : VehiclePosition.t) (e : exn) :
  vehicle_position_tuple feed_log_id v = Raise e -> e = YEAR_OUT_OF_RANGE.
Proof.
  unfold vehicle_position_tuple.
  destruct (truth (VehiclePosition.timestamp v)); [| discriminate].
  destruct (_ts_to_datetime (VehiclePosition.timestamp v)) as [c | x] eqn:E; [discriminate |].
  cbn. intros H. injection H as <-. now apply ts_to_datetime_raises in E.
Qed.



Lemma forallb_entity_in_range (entities : list FeedEntity.t) :
  forallb entity_in_range entities = true ->
  forallb entity_stop_times_in_range entities = true.
Proof.
  induction entities as [| e rest IH]; cbn; [reflexivity |].
  intros H. apply andb_prop in H. destruct H as [He Hrest].
  unfold entity_in_range in He. apply andb_prop in He. destruct He as [-> _].
  cbn. now apply IH.
Qed.

(** X4. With a database that accepts every call, the poll of a decoded message
    whose timestamps are all in the range of datetime returns normally, leaves
    no open transaction, and adds one audit row, one stop-time row per stop
    time update, and one trip-update, one vehicle and one alert row per
    entity of the message. *)
Theorem X4_poll_of_in_range_message :
  forall (env : environment) (feed_name feed_url : string) (m : FeedMessage.t) (w : world),
    fetch_and_parse env feed_url = Ok m ->
    message_in_range m = true ->
    no_db_fault env ->
    pending w = empty_database ->
    exists w',
      poll_feed env feed_name feed_url w = (Ok tt, w')
      /\ pending w' = empty_database
      /\ List.length (realtime_feed_logs (tables w'))
         = S (List.length (realtime_feed_logs (tables w)))
      /\ List.length (realtime_trip_updates (tables w'))
         = (List.length (realtime_trip_updates (tables w))
            + List.length (FeedMessage.entity m))%nat
      /\ List.length (realtime_stop_time_updates (tables w'))
         = (List.length (realtime_stop_time_updates (tables w))
            + List.length (visited_stop_time_updates (FeedMessage.entity m)))%nat
      /\ List.length (realtime_vehicle_positions (tables w'))
         = (List.length (realtime_vehicle_positions (tables w))
            + List.length (FeedMessage.entity m))%nat
      /\ List.length (realtime_service_alerts (tables w'))
         = (List.length (realtime_service_alerts (tables w))
            + List.length (FeedMessage.entity m))%nat.
Proof.
  intros env feed_name feed_url m w Hfetch Hm Hf Hp.
  unfold message_in_range in Hm. apply andb_prop in Hm. destruct Hm as [Hh He].
  destruct (@guarded_ts_total _ Hh) as [ts Hts].
  set (id := serial env (List.length (journal w))).
  destruct (@trip_update_loop_total id _ (@forallb_entity_in_range _ He) [] [])
    as (tus & stus & Htu).
  destruct (@vehicle_position_loop_total id _ He []) as (vps & Hvp).
  destruct (@poll_feed_row_counts env feed_name feed_url m w ts tus stus vps
              Hfetch Hp Hf Hts Htu Hvp) as (w' & E & Hc).
  exists w'. split; [exact E |]. split; [| exact Hc].
  now apply (@poll_feed_ok_pending env feed_name feed_url w w').
Qed.

Lemma poll_feed_audit (env : environment) (feed_name feed_url : string) (w : world) :
  no_db_fault env ->
  pending w = empty_database ->
  feed_in_range env (feed_name, feed_url) = true ->
  exists w',
    poll_feed env feed_name feed_url w = (Ok tt, w')
    /\ pending w' = empty_database
    /\ map audit_summary (realtime_feed_logs (tables w'))
       = map audit_summary (realtime_feed_logs (tables w))
         ++ [expected_audit env (feed_name, feed_url)].
Proof.
  intros Hf Hp Hr. unfold feed_in_range, expected_audit, fetch_succeeds in *. cbn [fst snd] in *.
  destruct (fetch_and_parse env feed_url) as [m | e] eqn:Hfetch.
  - unfold message_in_range in Hr. apply andb_prop in Hr. destruct Hr as [Hh He].
    destruct (@guarded_ts_total _ Hh) as [ts Hts].
    set (id := serial env (List.length (journal w))).
    destruct (@trip_update_loop_total id _ (@forallb_entity_in_range _ He) [] [])
      as (tus & stus & Htu).
    destruct (@vehicle_position_loop_total id _ He []) as (vps & Hvp).
    destruct (@poll_feed_no_fault env feed_name feed_url m w ts tus stus vps
                Hfetch Hp Hf Hts Htu Hvp) as (w' & E & T & P).
    exists w'. repeat split; try assumption.
    rewrite T. cbn. rewrite map_app. reflexivity.
  - rewrite (@poll_feed_fetch_error env feed_name feed_url e w Hfetch).
    pose proof (@log_feed_fetch_cases env feed_name feed_url PyNone false FAILED_TO_FETCH
                  (after_fetch_error feed_name feed_url e w) Hp) as C.
    cbv zeta in C.
    destruct (log_feed_fetch env feed_name feed_url PyNone false FAILED_TO_FETCH
                (after_fetch_error feed_name feed_url e w)) as [[id | x] w1].
    + destruct C as (_ & _ & _ & ->). eexists. split; [reflexivity |].
      cbn. rewrite map_app. split; reflexivity.
    + exfalso. destruct C as (_ & _ & _ & [F | F] & _); rewrite Hf in F; discriminate.
Qed.

Lemma poll_feeds_audit (env : environment) (feeds : list (string * string)) :
  no_db_fault env ->
  forallb (feed_in_range env) feeds = true ->
  forall w,
    pending w = empty_database ->
    exists w',
      poll_feeds env feeds w = (Ok tt, w')
      /\ pending w' = empty_database
      /\ map audit_summary (realtime_feed_logs (tables w'))
         = map audit_summary (realtime_feed_logs (tables w))
           ++ map (expected_audit env) feeds.
Proof.
  intros Hf. induction feeds as [| [feed_name feed_url] rest IH]; intros Hall w Hp.
  - exists w. cbn. rewrite app_nil_r. auto.
  - cbn in Hall. apply andb_prop in Hall. destruct Hall as [Hfeed Hrest].
    destruct (@poll_feed_audit env feed_name feed_url w Hf Hp Hfeed) as (w1 & E1 & P1 & A1).
    destruct (IH Hrest w1 P1) as (w2 & E2 & P2 & A2).
    exists w2. cbn [poll_feeds]. unfold bind. rewrite E1, E2.
    repeat split; try assumption.
    rewrite A2, A1, <- app_assoc. reflexivity.
Qed.

(** X5. In a cycle whose connection opens, whose database accepts every call
    and whose decoded messages have their timestamps in range, the audit table
    gains exactly one row per feed of the catalog, in catalog order, carrying
    the feed's name and url, with success true exactly for the feeds whose
    fetch and decode succeeded: a failed feed does not stop the others. *)
Theorem X5_one_audit_row_per_feed :
  forall (env : environment) (feeds : list (string * string)) (w : world),
    connect_fault env = false ->
    no_db_fault env ->
    forallb (feed_in_range env) feeds = true ->
    map audit_summary (realtime_feed_logs (tables (poll_cycle env feeds w)))
    = map audit_summary (realtime_feed_logs (tables w)) ++ map (expected_audit env) feeds.
Proof.
  intros env feeds w Hc Hf Hall. unfold poll_cycle, get_db_connection. rewrite Hc.
  set (w1 := World (tables w) empty_database (journal w) (log w)).
  destruct (@poll_feeds_audit env feeds Hf Hall w1 eq_refl) as (w2 & E & _ & A).
  rewrite E. cbn. exact A.
Qed.


Lemma stop_time_update_tuple_keys (feed_log_id : Z) (trip_id : string)
    (stu : StopTimeUpdate.t) (row : stop_time_update_row) :
  stop_time_update_tuple feed_log_id trip_id stu = Ok row ->
  stop_time_key row = expected_stop_time_key feed_log_id trip_id stu.
Proof.
  unfold stop_time_update_tuple.
  destruct (if truth (StopTimeUpdate.arrival stu) && _ then _ else _); [| discriminate].
  destruct (if truth (StopTimeUpdate.departure stu) && _ then _ else _); [| discriminate].
  cbn. intros H. injection H as <-. reflexivity.
Qed.

Lemma stop_time_update_loop_keys (feed_log_id : Z) (trip_id : string)
    (stus : list StopTimeUpdate.t) :
  forall acc rows,
    stop_time_update_loop feed_log_id trip_id stus acc = Ok rows ->
    map stop_time_key rows
    = map stop_time_key acc ++ map (expected_stop_time_key feed_log_id trip_id) stus.
Proof.
  induction stus as [| stu rest IH]; intros acc rows H; cbn in H.
  - injection H as <-. cbn. now rewrite app_nil_r.
  - destruct (stop_time_update_tuple feed_log_id trip_id stu) as [row | e] eqn:E;
      [| discriminate].
    cbn in H. apply IH in H. rewrite H, map_app, <- app_assoc. cbn.
    now rewrite (@stop_time_update_tuple_keys _ _ _ _ E).
Qed.

Lemma trip_update_loop_keys (feed_log_id : Z) (entities : list FeedEntity.t) :
  forall acc_tu acc_stu tus stus,
    trip_update_loop feed_log_id entities acc_tu acc_stu = Ok (tus, stus) ->
    map stop_time_key stus
    = map stop_time_key acc_stu ++ flat_map (expected_stop_time_keys feed_log_id) entities.
Proof.
  induction entities as [| e rest IH]; intros acc_tu acc_stu tus stus H; cbn in H.
  - injection H as _ <-. cbn. now rewrite app_nil_r.
  - change (truth (FeedEntity.trip_update e)) with true in H. cbn iota in H.
    destruct (stop_time_update_loop feed_log_id _ _ acc_stu) as [mid | err] eqn:E;
      [| discriminate].
    cbn in H. apply IH in H. apply stop_time_update_loop_keys in E.
    rewrite H, E, <- app_assoc. reflexivity.
Qed.

(** X6. The stop-time batch lists the stop time updates in feed order, entity
    by entity, and each row carries the attempt id, the trip id of the trip
    update it belongs to, its stop id and its stop sequence; the trip-update
    batch lists the entities in feed order under the same attempt id. *)
Theorem X6_stop_time_rows_follow_their_trip :
  forall (feed_log_id : Z) (entities : list FeedEntity.t)
         (tus : list trip_update_row) (stus : list stop_time_update_row),
    trip_update_loop feed_log_id entities [] [] = Ok (tus, stus) ->
    map stop_time_key stus = flat_map (expected_stop_time_keys feed_log_id) entities
    /\ map (fun r => (tu_feed_log_id r, tu_trip_id r)) tus
       = map (fun e => (PyInt feed_log_id,
                        PyStr (TripDescriptor.trip_id
                                 (TripUpdate.trip (FeedEntity.trip_update e)))))
             entities.
Proof.
  intros feed_log_id entities tus stus H. split.
  - now apply trip_update_loop_keys in H.
  - apply trip_update_loop_ok in H. destruct H as (-> & _). cbn.
    rewrite map_map. reflexivity.
Qed.

(** X7. On a connection with no open transaction, log_feed_fetch either
    commits exactly the one audit row with the id it returns and leaves no
    open transaction, or raises and leaves the tables as they were, also
    after the connection is closed. *)
Theorem X7_audit_insert_all_or_nothing :
  forall (env : environment) (feed_name feed_url : string) (ts : pyval) (ok : bool)
         (msg : pyval) (w : world),
    pending w = empty_database ->
    match log_feed_fetch env feed_name feed_url ts ok msg w with
    | (Ok id, w') =>
        exists fetched_at,
          tables w'
          = db_append (tables w)
              (Database [FeedLogRow id fetched_at
                           (FeedLogParams (PyStr feed_url) (PyStr feed_name) ts
                                          (PyBool ok) msg)] [] [] [] [])
          /\ pending w' = empty_database
    | (Raise _, w') =>
        tables w' = tables w
        /\ tables (snd (conn_close w')) = tables w
        /\ pending (snd (conn_close w')) = empty_database
    end.
Proof.
  intros env feed_name feed_url ts ok msg w Hp.
  pose proof (@log_feed_fetch_cases env feed_name feed_url ts ok msg w Hp) as C.
  cbv zeta in C.
  destruct (log_feed_fetch env feed_name feed_url ts ok msg w) as [[id | e] w'].
  - destruct C as (_ & _ & _ & ->). eexists. split; reflexivity.
  - destruct C as (_ & T & _). cbn. auto.
Qed.


Lemma days_round_trip (days : Z) :
  let '(y, m, d) := civil_from_days days in
  days_from_civil y m d = days /\ 1 <= m <= 12 /\ 1 <= d <= 31.
Proof.
  unfold civil_from_days, days_from_civil. cbv zeta.
  set (z := days + 719468).
  set (era := z / 146097).
  set (doe := z - era * 146097).
  assert (Hdoe : 0 <= doe <= 146096).
  { subst doe era. Z.to_euclidean_division_equations; lia. }
  set (yoe := (doe - doe / 1460 + doe / 36524 - doe / 146096) / 365).
  assert (Hyoe : 0 <= yoe <= 399).
  { subst yoe. clearbody doe. Z.to_euclidean_division_equations; lia. }
  set (doy := doe - (365 * yoe + yoe / 4 - yoe / 100)).
  assert (Hdoy : 0 <= doy <= 365).
  { subst doy yoe. clearbody doe. Z.to_euclidean_division_equations; lia. }
  set (mp := (5 * doy + 2) / 153).
  assert (Hmp : 0 <= mp <= 11).
  { subst mp. clearbody doy. Z.to_euclidean_division_equations; lia. }
  assert (Hd : 1 <= doy - (153 * mp + 2) / 5 + 1 <= 31).
  { subst mp. clearbody doy. Z.to_euclidean_division_equations; lia. }
  assert (Edoy : doy = doe - (365 * yoe + yoe / 4 - yoe / 100)) by reflexivity.
  assert (Edoe : doe = days + 719468 - era * 146097) by reflexivity.
  clearbody mp doy yoe era doe. clear z.
  destruct (Z.ltb_spec mp 10).
  - destruct (Z.leb_spec (mp + 3) 2); [lia |].
    destruct (Z.ltb_spec 2 (mp + 3)); [| lia].
    replace (mp + 3 - 3) with mp by lia.
    replace ((yoe + era * 400 + 0) / 400) with era by (Z.to_euclidean_division_equations; lia).
    repeat split; try lia.
    Z.to_euclidean_division_equations; lia.
  - destruct (Z.leb_spec (mp - 9) 2); [| lia].
    destruct (Z.ltb_spec 2 (mp - 9)); [lia |].
    replace (mp - 9 + 9) with mp by lia.
    replace ((yoe + era * 400 + 1 - 1) / 400) with era by (Z.to_euclidean_division_equations; lia).
    repeat split; try lia.
    Z.to_euclidean_division_equations; lia.
Qed.

Lemma month_day_checked : forallb month_day_ok (map Z.of_nat (seq 0 366)) = true.
Proof. vm_compute. reflexivity. Qed.

Lemma month_day (doy : Z) :
  0 <= doy <= 365 -> month_day_ok doy = true.
Proof.
  intros H. pose proof month_day_checked as C.
  rewrite forallb_forall in C. apply C.
  apply in_map_iff. exists (Z.to_nat doy). split; [lia |].
  apply in_seq. lia.
Qed.

Lemma civil_fields (days : Z) :
  let '(y, m, d) := civil_from_days days in
  1 <= d <= days_in_month y m
  /\ (-719162 <= days <= 2932896 -> 1 <= y <= 9999).
Proof.
  unfold civil_from_days. cbv zeta.
  set (z := days + 719468).
  set (era := z / 146097).
  set (doe := z - era * 146097).
  assert (Hdoe : 0 <= doe <= 146096).
  { subst doe era. Z.to_euclidean_division_equations; lia. }
  assert (Hera : -719162 <= days <= 2932896 ->
                 0 <= era <= 24 /\ (era = 0 -> 306 <= doe) /\ (era = 24 -> doe <= 146036)).
  { subst doe era z. Z.to_euclidean_division_equations; lia. }
  set (yoe := (doe - doe / 1460 + doe / 36524 - doe / 146096) / 365).
  assert (Hyoe : 0 <= yoe <= 399).
  { subst yoe. clearbody doe. Z.to_euclidean_division_equations; lia. }
  set (doy := doe - (365 * yoe + yoe / 4 - yoe / 100)).
  assert (Hdoy : 0 <= doy <= 365).
  { subst doy yoe. clearbody doe. Z.to_euclidean_division_equations; lia. }
  assert (Hleap : doy = 365 -> (yoe + 1) mod 4 = 0 /\ ((yoe + 1) mod 100 <> 0 \/ yoe = 399)).
  { subst doy yoe. clearbody doe. Z.to_euclidean_division_equations; lia. }
  assert (Edoy : doy = doe - (365 * yoe + yoe / 4 - yoe / 100)) by reflexivity.
  pose proof (@month_day doy Hdoy) as Hmd. unfold month_day_ok in Hmd. cbv zeta in Hmd.
  set (mp := (5 * doy + 2) / 153) in *.
  set (d := doy - (153 * mp + 2) / 5 + 1) in *.
  clearbody d mp doy yoe era doe. clear z.
  repeat (apply andb_prop in Hmd; destruct Hmd as [Hmd ?]).
  repeat match goal with
         | H : (_ <=? _) = true |- _ => apply Z.leb_le in H
         end.
  split.
  - unfold days_in_month, is_leap. unfold shifted_month_length in *.
    destruct (Z.ltb_spec mp 10) as [Hm | Hm].
    + destruct (Z.eqb_spec mp 11); [lia |].
      assert (Hm2 : (mp + 3 =? 2) = false) by (apply Z.eqb_neq; lia). rewrite Hm2.
      replace (mp + 3 =? 4) with (mp =? 1) by (destruct (Z.eqb_spec mp 1), (Z.eqb_spec (mp + 3) 4); lia).
      replace (mp + 3 =? 6) with (mp =? 3) by (destruct (Z.eqb_spec mp 3), (Z.eqb_spec (mp + 3) 6); lia).
      replace (mp + 3 =? 9) with (mp =? 6) by (destruct (Z.eqb_spec mp 6), (Z.eqb_spec (mp + 3) 9); lia).
      replace (mp + 3 =? 11) with (mp =? 8) by (destruct (Z.eqb_spec mp 8), (Z.eqb_spec (mp + 3) 11); lia).
      split; [lia | exact H2].
    + destruct (Z.eqb_spec mp 11) as [E | E].
      * subst mp. cbn [Z.sub Z.eqb Z.pos_sub Pos.pred_double Z.succ_double Z.pred_double Pos.eqb].
        change (11 - 9 =? 2) with true. cbn iota.
        destruct (Z.eq_dec d 29) as [E29 | E29];
          [| match goal with |- _ <= _ <= (if ?c then _ else _) => destruct c end; lia].
        assert (Hdoy365 : doy = 365).
        { subst d. cbn in H. apply Z.eqb_eq in H. exact H. }
        specialize (Hleap Hdoy365). destruct Hleap as [Hq4 Hq100].
        replace (yoe + era * 400 + (if 11 - 9 <=? 2 then 1 else 0))
          with ((yoe + 1) + era * 400) by (cbn; lia).
        assert (E4 : ((yoe + 1 + era * 400) mod 4 =? 0) = true).
        { apply Z.eqb_eq. Z.to_euclidean_division_equations; lia. }
        rewrite E4. cbn [andb].
        destruct Hq100 as [Hq100 | E399].
        -- assert (E100 : ((yoe + 1 + era * 400) mod 100 =? 0) = false).
           { apply Z.eqb_neq. Z.to_euclidean_division_equations; lia. }
           rewrite E100. cbn. lia.
        -- subst yoe.
           assert (E400 : ((399 + 1 + era * 400) mod 400 =? 0) = true).
           { apply Z.eqb_eq. Z.to_euclidean_division_equations; lia. }
           rewrite E400, orb_true_r. lia.
      * assert (mp = 10) by lia. subst mp.
        change (10 - 9) with 1. change (1 =? 2) with false.
        change ((1 =? 4) || (1 =? 6) || (1 =? 9) || (1 =? 11)) with false.
        change ((10 =? 1) || (10 =? 3) || (10 =? 6) || (10 =? 8)) with false in H2.
        cbn iota in H2 |- *. lia.
  - intros Hr. specialize (Hera Hr). destruct Hera as (He & He0 & He24).
    destruct (Z.ltb_spec mp 10) as [Hm | Hm].
    + destruct (Z.leb_spec (mp + 3) 2); [lia |].
      assert (Hlt : doy < 306) by (cbn in H0; apply Z.ltb_lt; exact H0).
      assert (yoe = 0 -> era = 0 -> False)
        by (intros; Z.to_euclidean_division_equations; lia).
      lia.
    + destruct (Z.leb_spec (mp - 9) 2); [| lia].
      assert (Hge : 306 <= doy) by (cbn in H1; lia).
      assert (era = 24 -> yoe = 399 -> False)
        by (intros; Z.to_euclidean_division_equations; lia).
      lia.
Qed.

Lemma utcfromtimestamp_round_trip (ts : Z) :
  in_datetime_range ts = true ->
  exists d, utcfromtimestamp ts = Ok d /\ valid_datetime d /\ timegm d = ts.
Proof.
  intros Hr. unfold utcfromtimestamp. rewrite Hr.
  unfold in_datetime_range, MIN_TIMESTAMP, MAX_TIMESTAMP in Hr.
  apply andb_prop in Hr. destruct Hr as [Hlo Hhi].
  apply Z.leb_le in Hlo. apply Z.leb_le in Hhi.
  pose proof (days_round_trip (ts / 86400)) as RT.
  pose proof (civil_fields (ts / 86400)) as CF.
  destruct (civil_from_days (ts / 86400)) as [[y m] d].
  destruct RT as (Hdays & Hm & _). destruct CF as (Hd & Hy).
  eexists. split; [reflexivity |]. unfold valid_datetime, timegm. cbn.
  rewrite Hdays.
  assert (Hrange : -719162 <= ts / 86400 <= 2932896)
    by (Z.to_euclidean_division_equations; lia).
  specialize (Hy Hrange).
  repeat split; try lia; Z.to_euclidean_division_equations; lia.
Qed.

Example timegm_2024 : timegm (Datetime 2024 1 1 9 6 40) = 1704100000.
Proof. reflexivity. Qed.

(** X9. For a non-zero timestamp in the range of datetime, _ts_to_datetime
    returns a datetime that exists (year 1 to 9999, a real day of its month,
    a time of day) and from which the timestamp is recovered exactly by
    timegm. *)
Theorem X9_ts_to_datetime_round_trip :
  forall ts : Z,
    ts <> 0 ->
    in_datetime_range ts = true ->
    exists d,
      _ts_to_datetime ts = Ok (PyDatetime d) /\ valid_datetime d /\ timegm d = ts.
Proof.
  intros ts Hnz Hr. unfold _ts_to_datetime, truth, truth_int.
  destruct (Z.eqb_spec ts 0) as [E | E]; [contradiction |]. cbn [negb].
  destruct (@utcfromtimestamp_round_trip ts Hr) as (d & -> & Hv & Ht).
  exists d. cbn. auto.
Qed.

Lemma ts_to_datetime_ok (ts : Z) (cell : pyval) :
  _ts_to_datetime ts = Ok cell ->
  (ts = 0 /\ cell = PyNone)
  \/ (ts <> 0 /\ exists d, cell = PyDatetime d /\ timegm d = ts).
Proof.
  intros H. unfold _ts_to_datetime, truth, truth_int in H.
  destruct (Z.eqb_spec ts 0) as [E | E]; cbn [negb] in H.
  - left. split; [assumption | congruence].
  - right. split; [assumption |].
    destruct (in_datetime_range ts) eqn:Hr.
    + destruct (@utcfromtimestamp_round_trip ts Hr) as (d & Hu & _ & Ht).
      rewrite Hu in H. cbn in H. injection H as <-. eauto.
    + rewrite (@utcfromtimestamp_out_of_range ts Hr) in H. discriminate.
Qed.

(** X10. _ts_to_datetime never maps two different timestamps to the same
    value: None stands for 0 alone and each datetime for one timestamp. *)
Theorem X10_ts_to_datetime_injective :
  forall (ts1 ts2 : Z) (cell : pyval),
    _ts_to_datetime ts1 = Ok cell ->
    _ts_to_datetime ts2 = Ok cell ->
    ts1 = ts2.
Proof.
  intros ts1 ts2 cell H1 H2.
  apply ts_to_datetime_ok in H1. apply ts_to_datetime_ok in H2.
  destruct H1 as [[-> E1] | [_ (d1 & E1 & T1)]], H2 as [[-> E2] | [_ (d2 & E2 & T2)]];
    subst; try discriminate; try reflexivity.
  injection E2 as ->. reflexivity.
Qed.

(** ** Instances *)

Lemma X2_witness :
  fetch_and_parse (env_serving message_far_future_header []) "u"
  = Ok message_far_future_header
  /\ in_datetime_range (FeedHeader.timestamp (FeedMessage.header message_far_future_header))
     = false
  /\ poll_feed (env_serving message_far_future_header []) "F" "u" world0
     = (Raise YEAR_OUT_OF_RANGE,
        World empty_database empty_database [] [LogInfo "Fetching feed: F from u"])
  /\ journal (snd (poll_feeds (env_serving message_far_future_header [])
                     (("F", "u") :: GTFS_RT_FEEDS) world0)) = [].
Proof.
  split; [reflexivity |]. split; [reflexivity |].
  destruct (@X2_header_timestamp_out_of_range
              (env_serving message_far_future_header []) "F" "u"
              message_far_future_header GTFS_RT_FEEDS world0 eq_refl eq_refl) as [H1 H2].
  split; [exact H1 |]. rewrite H2. reflexivity.
Defined.


Lemma X4_witness :
  fetch_and_parse (env_serving message_trip_and_vehicle []) "u" = Ok message_trip_and_vehicle
  /\ message_in_range message_trip_and_vehicle = true
  /\ exists w',
       poll_feed (env_serving message_trip_and_vehicle []) "F" "u" world0 = (Ok tt, w')
       /\ pending w' = empty_database
       /\ List.length (realtime_feed_logs (tables w')) = 1%nat
       /\ List.length (realtime_stop_time_updates (tables w')) = 2%nat.
Proof.
  split; [reflexivity |]. split; [reflexivity |].
  destruct (@X4_poll_of_in_range_message
              (env_serving message_trip_and_vehicle []) "F" "u"
              message_trip_and_vehicle world0 eq_refl eq_refl (fun n => eq_refl) eq_refl)
    as (w' & E & P & L & _ & S & _).
  exists w'. repeat split; assumption.
Defined.

Lemma X5_witness :
  connect_fault env_timeout = false
  /\ forallb (feed_in_range env_timeout) GTFS_RT_FEEDS = true
  /\ map audit_summary (realtime_feed_logs (tables (poll_cycle env_timeout GTFS_RT_FEEDS world0)))
     = map (expected_audit env_timeout) GTFS_RT_FEEDS.
Proof.
  split; [reflexivity |]. split; [reflexivity |].
  exact (@X5_one_audit_row_per_feed env_timeout GTFS_RT_FEEDS world0
           eq_refl (fun n => eq_refl) eq_refl).
Defined.

Lemma X6_witness :
  exists tus stus,
    trip_update_loop 7 [FeedEntity.Make "e1" (Some trip_T1) None None] [] [] = Ok (tus, stus)
    /\ map stop_time_key stus
       = [ (PyInt 7, PyStr "T1", PyStr "S1", PyInt 1);
           (PyInt 7, PyStr "T1", PyStr "S2", PyInt 2) ].
Proof.
  eexists _, _. split; [reflexivity |].
  exact (proj1 (@X6_stop_time_rows_follow_their_trip 7
                  [FeedEntity.Make "e1" (Some trip_T1) None None] _ _ eq_refl)).
Defined.

Lemma X7_witness :
  pending world0 = empty_database
  /\ exists fetched_at,
       tables (snd (log_feed_fetch env_timeout "F" "u" PyNone false FAILED_TO_FETCH world0))
       = db_append (tables world0)
           (Database [FeedLogRow 100 fetched_at
                        (FeedLogParams (PyStr "u") (PyStr "F") PyNone (PyBool false)
                                       FAILED_TO_FETCH)] [] [] [] []).
Proof.
  split; [reflexivity |].
  pose proof (@X7_audit_insert_all_or_nothing env_timeout "F" "u" PyNone false
                FAILED_TO_FETCH world0 eq_refl) as H.
  cbn in H. destruct H as (fetched_at & T & _). exists fetched_at. exact T.
Defined.


Lemma X9_witness :
  in_datetime_range 1704100000 = true
  /\ exists d,
       _ts_to_datetime 1704100000 = Ok (PyDatetime d)
       /\ valid_datetime d /\ timegm d = 1704100000.
Proof.
  split; [reflexivity |].
  apply (@X9_ts_to_datetime_round_trip 1704100000); [discriminate | reflexivity].
Defined.

Lemma X10_witness :
  _ts_to_datetime 1704100000 = Ok (PyDatetime (Datetime 2024 1 1 9 6 40))
  /\ 1704100000 = 1704100000.
Proof.
  split; [reflexivity |].
  exact (@X10_ts_to_datetime_injective 1704100000 1704100000
           (PyDatetime (Datetime 2024 1 1 9 6 40)) eq_refl eq_refl).
Defined.
